(** * The assessment endpoint of [src/api/generate-assessment.js]

    A shallow embedding of the POST handler [/api/generate-assessment] and of
    [generateAssessment], with the outbound calls of one request recorded in
    a log and the subscriber table carried as state.

    Conventions.
    - A JavaScript string is its sequence of code units; the model keeps the
      code units below 256, so a [string] of Rocq stands for itself.
    - Times are milliseconds since the epoch, in [Z].
    - The body of a request is taken at the types of the form: a text field
      is a string or is absent, the consent is a boolean or is absent.
    - Library and built-in functions whose code is not in the repository
      ([JSON.parse], [Date] parsing and printing, the validator primitives
      [isEmail], [normalizeEmail], [escape]) are the fields of the class
      [Runtime]; the replies of the external services and the clock are the
      fields of the record [World].
    - The middleware in front of the route (CORS, helmet, the rate limiter),
      the logging and the configuration read from the environment are left
      out: they take no part in what the route answers once it runs. *)

From Stdlib Require Import ZArith QArith String Ascii List Bool Lia.
From stdpp Require Import base option gmap strings list.

Set Warnings "-register-all".

Local Open Scope string_scope.
Local Open Scope Z_scope.

(** ** JavaScript strings *)

Module JsString.

(** White space of [String.prototype.trim] and of the [\s] class, in the
    range of code units kept by the model: TAB, LF, VT, FF, CR, SP, NBSP. *)
Definition is_ws (c : ascii) : bool :=
  let n := nat_of_ascii c in
  (Nat.eqb n 9 || Nat.eqb n 10 || Nat.eqb n 11 || Nat.eqb n 12
   || Nat.eqb n 13 || Nat.eqb n 32 || Nat.eqb n 160)%bool.

Definition is_empty (s : string) : bool :=
  match s with EmptyString => true | String _ _ => false end.

Fixpoint trimStart (s : string) : string :=
  match s with
  | EmptyString => EmptyString
  | String c s' => if is_ws c then trimStart s' else s
  end.

Fixpoint trimEnd (s : string) : string :=
  match s with
  | EmptyString => EmptyString
  | String c s' =>
      let t := trimEnd s' in
      if (is_ws c && is_empty t)%bool then EmptyString else String c t
  end.

(** [s.trim()] *)
Definition trim (s : string) : string := trimEnd (trimStart s).

(** [s.startsWith(p)] *)
Definition startsWith (s p : string) : bool := String.prefix p s.

(** [s.endsWith(p)]: some suffix of [s] is [p]. *)
Fixpoint endsWith (s p : string) : bool :=
  (String.eqb s p
   || match s with
      | EmptyString => false
      | String _ s' => endsWith s' p
      end)%bool.

(** [s.slice(a, -b)] for [a, b >= 0]: the end index is [max (len - b) 0],
    and the result is empty when the start is not before the end. *)
Definition slice (s : string) (a b : nat) : string :=
  String.substring a (String.length s - b - a) s.

(** [s.split('T')[0]]: the part before the first [T]. *)
Fixpoint before_T (s : string) : string :=
  match s with
  | EmptyString => EmptyString
  | String c s' => if Ascii.eqb c "T" then EmptyString else String c (before_T s')
  end.

(** The regular expression [/{[\s\S]*}/]: the match starts at the first
    opening brace that has a closing brace after it and, the star being
    greedy, runs to the last closing brace. *)
Fixpoint through_last_close (s : string) : option string :=
  match s with
  | EmptyString => None
  | String c s' =>
      match through_last_close s' with
      | Some t => Some (String c t)
      | None => if Ascii.eqb c "}" then Some (String c EmptyString) else None
      end
  end.

Fixpoint match_braces (s : string) : option string :=
  match s with
  | EmptyString => None
  | String c s' =>
      if Ascii.eqb c "{"
      then option_map (String c) (through_last_close s')
      else match_braces s'
  end.

End JsString.

Import JsString.

(** ** JavaScript values *)

(** The values the handler sees: what [JSON.parse] and the replies of the
    services can hold, and [undefined].  A number keeps its lexeme; an
    object keeps its members in the order written, a later member with the
    same key shadowing an earlier one. *)
Inductive jsval : Type :=
  | JUndefined
  | JNull
  | JBool (b : bool)
  | JNum (lexeme : string)
  | JStr (s : string)
  | JArr (items : list jsval)
  | JObj (members : list (string * jsval)).

Module JsValue.

Definition is_digit (c : ascii) : bool :=
  let n := nat_of_ascii c in (Nat.leb 48 n && Nat.leb n 57)%bool.

(** A number lexeme denotes zero when every digit of its mantissa is [0]. *)
Fixpoint mantissa_zero (s : string) : bool :=
  match s with
  | EmptyString => true
  | String c s' =>
      if (Ascii.eqb c "e" || Ascii.eqb c "E")%bool then true
      else if (is_digit c && negb (Ascii.eqb c "0"))%bool then false
      else mantissa_zero s'
  end.

(** ToBoolean *)
Definition truthy (v : jsval) : bool :=
  match v with
  | JUndefined | JNull => false
  | JBool b => b
  | JNum lx => negb (mantissa_zero lx)
  | JStr s => negb (is_empty s)
  | JArr _ | JObj _ => true
  end.

Definition nullish (v : jsval) : bool :=
  match v with JUndefined | JNull => true | _ => false end.

Fixpoint lookup_member (k : string) (ms : list (string * jsval)) : option jsval :=
  match ms with
  | [] => None
  | (k', v) :: ms' =>
      match lookup_member k ms' with
      | Some w => Some w
      | None => if String.eqb k' k then Some v else None
      end
  end.

(** [v.k] for the property names the handler reads ([success], [choices],
    [message], [content], [assessmentSections], [document], [id],
    [download_url]); none of them is a property of an array, a string, a
    number or a boolean.  [None] is the TypeError of reading a property of
    [undefined] or [null]. *)
Definition get_prop (v : jsval) (k : string) : option jsval :=
  match v with
  | JUndefined | JNull => None
  | JObj ms => Some (default JUndefined (lookup_member k ms))
  | _ => Some JUndefined
  end.

Definition index_key (i : nat) : string :=
  String (ascii_of_nat (48 + i)) EmptyString.

(** [v[i]] for an index [i < 10]. *)
Definition get_index (v : jsval) (i : nat) : option jsval :=
  match v with
  | JUndefined | JNull => None
  | JObj ms => Some (default JUndefined (lookup_member (index_key i) ms))
  | JArr items => Some (nth i items JUndefined)
  | JStr s =>
      Some (match String.get i s with
            | Some c => JStr (String c EmptyString)
            | None => JUndefined
            end)
  | _ => Some JUndefined
  end.

End JsValue.

Import JsValue.

(** ** A reference [JSON.parse] *)

Module Json.

Definition dquote : ascii := "034"%char.
Definition backslash : ascii := "092"%char.

(** White space of the JSON grammar: SP, TAB, LF, CR. *)
Definition is_json_ws (c : ascii) : bool :=
  let n := nat_of_ascii c in
  (Nat.eqb n 32 || Nat.eqb n 9 || Nat.eqb n 10 || Nat.eqb n 13)%bool.

Fixpoint skip_ws (s : string) : string :=
  match s with
  | EmptyString => EmptyString
  | String c s' => if is_json_ws c then skip_ws s' else s
  end.

Fixpoint span_digits (s : string) : string * string :=
  match s with
  | EmptyString => (EmptyString, EmptyString)
  | String c s' =>
      if is_digit c
      then let (d, r) := span_digits s' in (String c d, r)
      else (EmptyString, s)
  end.

(** The number grammar: an optional minus sign, an integer part that is a
    lone 0 or starts with a digit from 1 to 9, an optional fraction, an
    optional exponent. *)
Definition parse_int (s : string) : option (string * string) :=
  match s with
  | String c s' =>
      if Ascii.eqb c "0" then Some ("0", s')
      else if is_digit c then Some (span_digits s)
      else None
  | EmptyString => None
  end.

Definition parse_frac (s : string) : option (string * string) :=
  match s with
  | String c s' =>
      if Ascii.eqb c "." then
        let (d, r) := span_digits s' in
        if is_empty d then None else Some (String c d, r)
      else Some (EmptyString, s)
  | EmptyString => Some (EmptyString, s)
  end.

Definition parse_exp (s : string) : option (string * string) :=
  match s with
  | String c s' =>
      if (Ascii.eqb c "e" || Ascii.eqb c "E")%bool then
        let (sign, s2) :=
          match s' with
          | String g s'' =>
              if (Ascii.eqb g "+" || Ascii.eqb g "-")%bool
              then (String g EmptyString, s'') else (EmptyString, s')
          | EmptyString => (EmptyString, s')
          end in
        let (d, r) := span_digits s2 in
        if is_empty d then None else Some (String c (sign ++ d), r)
      else Some (EmptyString, s)
  | EmptyString => Some (EmptyString, s)
  end.

Definition parse_number (s : string) : option (string * string) :=
  let (sign, s1) :=
    match s with
    | String c s' => if Ascii.eqb c "-" then ("-", s') else ("", s)
    | EmptyString => ("", s)
    end in
  '(i, s2) ← parse_int s1;
  '(f, s3) ← parse_frac s2;
  '(e, s4) ← parse_exp s3;
  Some (sign ++ i ++ f ++ e, s4).

Definition hex_digit (c : ascii) : option nat :=
  let n := nat_of_ascii c in
  if (Nat.leb 48 n && Nat.leb n 57)%bool then Some (n - 48)%nat
  else if (Nat.leb 65 n && Nat.leb n 70)%bool then Some (n - 55)%nat
  else if (Nat.leb 97 n && Nat.leb n 102)%bool then Some (n - 87)%nat
  else None.

(** The code unit of [\uXXXX]; an escape for a code unit the model does not
    keep is outside the model. *)
Definition hex4 (a b c d : ascii) : option ascii :=
  x1 ← hex_digit a; x2 ← hex_digit b; x3 ← hex_digit c; x4 ← hex_digit d;
  let n := (((x1 * 16 + x2) * 16 + x3) * 16 + x4)%nat in
  if Nat.ltb n 256 then Some (ascii_of_nat n) else None.

Definition simple_escape (c : ascii) : option ascii :=
  if Ascii.eqb c dquote then Some dquote
  else if Ascii.eqb c backslash then Some backslash
  else if Ascii.eqb c "/" then Some "/"%char
  else if Ascii.eqb c "b" then Some "008"%char
  else if Ascii.eqb c "f" then Some "012"%char
  else if Ascii.eqb c "n" then Some "010"%char
  else if Ascii.eqb c "r" then Some "013"%char
  else if Ascii.eqb c "t" then Some "009"%char
  else None.

(** The characters of a string literal after its opening quote. *)
Fixpoint parse_string_body (s : string) : option (string * string) :=
  match s with
  | EmptyString => None
  | String c r =>
      if Ascii.eqb c dquote then Some (EmptyString, r)
      else if Ascii.eqb c backslash then
        match r with
        | String e r' =>
            if Ascii.eqb e "u" then
              match r' with
              | String h1 (String h2 (String h3 (String h4 r''))) =>
                  match hex4 h1 h2 h3 h4, parse_string_body r'' with
                  | Some u, Some (t, rest) => Some (String u t, rest)
                  | _, _ => None
                  end
              | _ => None
              end
            else
              match simple_escape e, parse_string_body r' with
              | Some u, Some (t, rest) => Some (String u t, rest)
              | _, _ => None
              end
        | EmptyString => None
        end
      else if Nat.ltb (nat_of_ascii c) 32 then None
      else
        match parse_string_body r with
        | Some (t, rest) => Some (String c t, rest)
        | None => None
        end
  end.

Definition parse_literal (word : string) (v : jsval) (s : string)
  : option (jsval * string) :=
  if String.prefix word s
  then Some (v, String.substring (String.length word)
                  (String.length s - String.length word) s)
  else None.

Fixpoint parse_value (fuel : nat) (s : string) : option (jsval * string) :=
  match fuel with
  | O => None
  | S f =>
      match skip_ws s with
      | EmptyString => None
      | String c r =>
          if Ascii.eqb c "{" then
            match skip_ws r with
            | String d r' =>
                if Ascii.eqb d "}" then Some (JObj [], r')
                else parse_members f r []
            | EmptyString => None
            end
          else if Ascii.eqb c "[" then
            match skip_ws r with
            | String d r' =>
                if Ascii.eqb d "]" then Some (JArr [], r')
                else parse_elements f r []
            | EmptyString => None
            end
          else if Ascii.eqb c dquote then
            '(t, rest) ← parse_string_body r; Some (JStr t, rest)
          else if Ascii.eqb c "t" then parse_literal "true" (JBool true) (String c r)
          else if Ascii.eqb c "f" then parse_literal "false" (JBool false) (String c r)
          else if Ascii.eqb c "n" then parse_literal "null" JNull (String c r)
          else '(lx, rest) ← parse_number (String c r); Some (JNum lx, rest)
      end
  end
with parse_elements (fuel : nat) (s : string) (acc : list jsval)
  : option (jsval * string) :=
  match fuel with
  | O => None
  | S f =>
      match parse_value f s with
      | Some (v, r) =>
          match skip_ws r with
          | String d r' =>
              if Ascii.eqb d "," then parse_elements f r' (v :: acc)
              else if Ascii.eqb d "]" then Some (JArr (rev (v :: acc)), r')
              else None
          | EmptyString => None
          end
      | None => None
      end
  end
with parse_members (fuel : nat) (s : string) (acc : list (string * jsval))
  : option (jsval * string) :=
  match fuel with
  | O => None
  | S f =>
      match skip_ws s with
      | String q r =>
          if Ascii.eqb q dquote then
            match parse_string_body r with
            | Some (k, r1) =>
                match skip_ws r1 with
                | String d r2 =>
                    if Ascii.eqb d ":" then
                      match parse_value f r2 with
                      | Some (v, r3) =>
                          match skip_ws r3 with
                          | String e r4 =>
                              if Ascii.eqb e "," then parse_members f r4 ((k, v) :: acc)
                              else if Ascii.eqb e "}"
                              then Some (JObj (rev ((k, v) :: acc)), r4)
                              else None
                          | EmptyString => None
                          end
                      | None => None
                      end
                    else None
                | EmptyString => None
                end
            | None => None
            end
          else None
      | EmptyString => None
      end
  end.

(** [JSON.parse]: one value, white space around it, nothing else.  The nesting
    and the number of members are bounded by the length of the text, which
    bounds the depth of the calls. *)
Definition parse (s : string) : option jsval :=
  match parse_value (2 * String.length s + 2) s with
  | Some (v, r) => if is_empty (skip_ws r) then Some v else None
  | None => None
  end.

End Json.

(** ** Data model *)

(** The body of a request, at the types of the form: a text input is a
    string or is absent, the consent box is a boolean or is absent.  After
    the sanitizers have run, an absent [email] also stands for the [false]
    that [normalizeEmail] can return. *)
Record FormData : Type := {
  name : option string;
  email : option string;
  company : option string;
  company_size : option string;
  it_challenge : option string;
  it_setup : option string;
  consent : option bool
}.

Record Request : Type := {
  formData : FormData;
  verificationToken : option string;
  honeypot : option string;
  recaptchaToken : option string
}.

(** A row of the table [subscribers]; [lead_magnet_generated] maps the name
    of a lead magnet to the time it was last generated, and can be null. *)
Module Subscriber.
Record row : Type := {
  email : string;
  verification_token : string;
  lead_magnet_generated : option (gmap string string)
}.
End Subscriber.

(** The fields interpolated into the prompt of the completion request. *)
Module Prompt.
Record t : Type := {
  name : string;
  company : string;
  company_size : string;
  it_challenge : string;
  it_setup : string
}.
End Prompt.

(** The payload of the render job (the template identifier and the status
    [pending] are constants of the call). *)
Module Payload.
Record t : Type := {
  name : string;
  company : string;
  company_size : string;
  it_challenge : string;
  it_setup : string;
  date : string;
  overview : jsval;
  challengeAnalysis : jsval;
  recommendations : jsval;
  nextSteps : jsval
}.
End Payload.

(** The message handed to the mail transport: recipient, subject and the
    values interpolated into the HTML text. *)
Module Mail.
Record t : Type := {
  to : string;
  subject : string;
  name : string;
  company : string;
  pdfUrl : jsval
}.
End Mail.

(** The outbound calls of a request, and the one suspension. *)
Inductive Call : Type :=
  | CaptchaVerify (response : string)
  | SubscribersSelect (verification_token : string)
  | ChatCompletion (p : Prompt.t)
  | SubscribersUpsert (r : Subscriber.row)
  | RenderCreate (p : Payload.t)
  | Sleep (ms : Z)
  | RenderFetch (documentId : jsval)
  | SendMail (m : Mail.t).

Record ValidationError : Type := { param : string; msg : string }.

Inductive Body : Type :=
  | BodyErrors (errors : list ValidationError)
  | BodyError (error : string)
  | BodyMessage (message : string)
  | BodyGenerated (message : string) (downloadUrl : jsval).

Record Response : Type := { status : Z; body : Body }.

(** ** Environment *)

(** Built-ins and library functions used by the handler. [Date_parse] is
    the time value of [new Date(s)], [None] for an invalid date;
    [normalizeEmail] returns [None] for [false]. *)
Class Runtime : Type := {
  isEmail : string -> bool;
  normalizeEmail : string -> option string;
  escape : string -> string;
  JSON_parse : string -> option jsval;
  Date_parse : string -> option Z;
  toISOString : Z -> string
}.

(** What the outside answers during one request.  A reply [None] of an
    HTTP call is a rejected promise (network failure, status outside 2xx);
    [Some data] is [response.data].  The clock is read after the calls made
    so far.  The two table operations report an error instead of throwing. *)
Record World : Type := {
  clock : list Call -> Z;
  siteverify : string -> option jsval;
  select_error : string -> option string;
  chat_completion : Prompt.t -> option jsval;
  upsert_error : Subscriber.row -> option string;
  render_create : Payload.t -> option jsval;
  render_fetch : jsval -> option jsval;
  sendMail : Mail.t -> bool
}.

(** The state threaded through a request: the calls made so far, oldest
    first, and the table of subscribers. *)
Record St : Type := { calls : list Call; subscribers : list Subscriber.row }.

(** ** The subscriber table *)

Module Table.

(** Modelled from the spec: the subscriber store behind the client of
    [../config/supabase.js], read by verification token.  This is
    [select ... .eq('verification_token', tok)]; the rows come in the order
    of the table. *)
Definition select (tok : string) (db : list Subscriber.row) : list Subscriber.row :=
  filter (fun r => Subscriber.verification_token r = tok) db.

(** Modelled from the spec: the write to the subscriber store, an upsert
    keyed on email.  This is [upsert(r, { onConflict: 'email' })]: the row
    with the same email is replaced, or the row is added. *)
Fixpoint upsert (r : Subscriber.row) (db : list Subscriber.row) : list Subscriber.row :=
  match db with
  | [] => [r]
  | x :: db' =>
      if String.eqb (Subscriber.email x) (Subscriber.email r)
      then r :: db'
      else x :: upsert r db'
  end.

Definition find_email (e : string) (db : list Subscriber.row) : option Subscriber.row :=
  List.find (fun r => String.eqb (Subscriber.email r) e) db.

End Table.

(** ** The monad of the handler *)

(** A computation ends with a value, with a thrown error (its message), or
    with the handler having returned a response. *)
Inductive Outcome (A : Type) : Type :=
  | Value (a : A)
  | Throws (message : string)
  | Returns (r : Response).

Arguments Value {A} a.
Arguments Throws {A} message.
Arguments Returns {A} r.

Definition M (A : Type) : Type := St -> St * Outcome A.

Definition ret {A} (a : A) : M A := fun st => (st, Value a).

Definition bind {A B} (m : M A) (k : A -> M B) : M B :=
  fun st =>
    match m st with
    | (st', Value a) => k a st'
    | (st', Throws e) => (st', Throws e)
    | (st', Returns r) => (st', Returns r)
    end.

Definition throw {A} (message : string) : M A := fun st => (st, Throws message).

(** [return res.status(code).json(b)] *)
Definition respond {A} (code : Z) (b : Body) : M A :=
  fun st => (st, Returns {| status := code; body := b |}).

(** [try { m } catch (error) { h error }]: a [return] inside [m] is not
    caught. *)
Definition try_catch {A} (m : M A) (h : string -> M A) : M A :=
  fun st =>
    match m st with
    | (st', Throws e) => h e st'
    | other => other
    end.

Definition record (c : Call) : M unit :=
  fun st =>
    ({| calls := (calls st ++ [c])%list; subscribers := subscribers st |}, Value tt).

Definition history : M (list Call) := fun st => (st, Value (calls st)).

Definition table : M (list Subscriber.row) := fun st => (st, Value (subscribers st)).

Definition set_table (db : list Subscriber.row) : M unit :=
  fun st => ({| calls := calls st; subscribers := db |}, Value tt).

Declare Scope handler_scope.
Delimit Scope handler_scope with handler.
Notation "'do' x <- m ; k" := (bind m (fun x => k))
  (at level 10, x name, m at level 100, k at level 200,
   format "'[v' 'do'  x  <-  m ; '/' k ']'") : handler_scope.
Notation "m ;; k" := (bind m (fun _ => k))
  (at level 100, k at level 200, right associativity,
   format "'[v' m ;; '/' k ']'") : handler_scope.

(** [await] of an HTTP call: the call is recorded, a rejected promise
    throws. *)
Definition await (c : Call) (reply : option jsval) : M jsval :=
  bind (record c) (fun _ =>
    match reply with
    | Some data => ret data
    | None => throw "Request failed"
    end).

(** Property reads, with the TypeError of a read on [undefined] or [null]. *)
Definition prop (v : jsval) (k : string) : M jsval :=
  match get_prop v k with
  | Some x => ret x
  | None => throw "TypeError: Cannot read properties of undefined"
  end.

Definition index (v : jsval) (i : nat) : M jsval :=
  match get_index v i with
  | Some x => ret x
  | None => throw "TypeError: Cannot read properties of undefined"
  end.

(** ** The validation chains *)

Module Validator.

(** The string a chain works on: an absent value is the empty string, a
    boolean is its name. *)
Definition toString (o : option string) : string := default "" o.

Definition boolToString (o : option bool) : string :=
  match o with
  | Some true => "true"
  | Some false => "false"
  | None => ""
  end.

(** [isLength({ min, max })]; the code units kept by the model count one
    each. *)
Definition isLength (min max : nat) (s : string) : bool :=
  (Nat.leb min (String.length s) && Nat.leb (String.length s) max)%bool.

Definition isIn (options : list string) (s : string) : bool :=
  existsb (String.eqb s) options.

Definition isBoolean (s : string) : bool := isIn ["true"; "false"; "1"; "0"] s.

Definition equals (comparison s : string) : bool := String.eqb s comparison.

Definition notEmpty (s : string) : bool := negb (is_empty s).

Definition invalid (path : string) : ValidationError :=
  {| param := path; msg := "Invalid value" |}.

Definition check (ok : bool) (path : string) : list ValidationError :=
  if ok then [] else [invalid path].

Definition company_sizes : list string := ["1-10"; "11-50"; "51-200"; "200+"].

Section Chains.
Context `{Runtime}.

(** [body(path).trim().isLength({ min, max }).escape()] *)
Definition text_chain (path : string) (min max : nat) (v : option string)
  : list ValidationError * option string :=
  let trimmed := trim (toString v) in
  (check (isLength min max trimmed) path, Some (escape trimmed)).

(** The chains of the route, in order.  A chain marked [optional()] is
    skipped for an absent value.  The result is the list of errors and the
    body as the sanitizers leave it. *)
Definition validate (req : Request) : list ValidationError * Request :=
  let fd := formData req in
  let '(e_name, v_name) := text_chain "formData.name" 1 50 (name fd) in
  let e_email := check (isEmail (toString (email fd))) "formData.email" in
  let v_email := normalizeEmail (toString (email fd)) in
  let '(e_company, v_company) := text_chain "formData.company" 1 100 (company fd) in
  let e_size :=
    check (isIn company_sizes (toString (company_size fd))) "formData.company_size" in
  let '(e_challenge, v_challenge) :=
    text_chain "formData.it_challenge" 1 100 (it_challenge fd) in
  let '(e_setup, v_setup) :=
    match it_setup fd with
    | None => ([], None)
    | Some s => text_chain "formData.it_setup" 0 200 (Some s)
    end in
  let e_consent :=
    (check (isBoolean (boolToString (consent fd))) "formData.consent"
     ++ check (equals "true" (boolToString (consent fd))) "formData.consent")%list in
  let e_token := check (notEmpty (toString (recaptchaToken req))) "recaptchaToken" in
  ((e_name ++ e_email ++ e_company ++ e_size ++ e_challenge ++ e_setup
    ++ e_consent ++ e_token)%list,
   {| formData :=
        {| name := v_name; email := v_email; company := v_company;
           company_size := company_size fd; it_challenge := v_challenge;
           it_setup := v_setup; consent := consent fd |};
      verificationToken := verificationToken req;
      honeypot := honeypot req;
      recaptchaToken := recaptchaToken req |}).

End Chains.
End Validator.

Definition is_empty_list {A} (l : list A) : bool :=
  match l with [] => true | _ :: _ => false end.

(** ** The handler *)

Section Handler.
Context `{Runtime}.
Variable w : World.

Local Open Scope handler_scope.

(** Truth value of a body field, and its interpolation into a template. *)
Definition present (o : option string) : bool :=
  match o with Some s => negb (is_empty s) | None => false end.

Definition text (o : option string) : string := default "undefined" o.

(** [formData.it_setup || 'Not provided'] *)
Definition setup_or_default (fd : FormData) : string :=
  if present (it_setup fd) then text (it_setup fd) else "Not provided".

Definition prompt_of (fd : FormData) : Prompt.t :=
  {| Prompt.name := text (name fd);
     Prompt.company := text (company fd);
     Prompt.company_size := text (company_size fd);
     Prompt.it_challenge := text (it_challenge fd);
     Prompt.it_setup := setup_or_default fd |}.

(** [JSON.parse(s)], a SyntaxError when the text is not JSON. *)
Definition parse (s : string) : M jsval :=
  match JSON_parse s with
  | Some v => ret v
  | None => throw "SyntaxError"
  end.

(** [rawContent.trim()] and the removal of the code-block markers. *)
Definition strip_fence (rawContent : string) : string :=
  let jsonString := trim rawContent in
  if (startsWith jsonString "```json" && endsWith jsonString "```")%bool
  then trim (slice jsonString 7 3)
  else if (startsWith jsonString "```" && endsWith jsonString "```")%bool
  then trim (slice jsonString 3 3)
  else jsonString.

(** From the content of the completion to the assessment: lines 134-156. *)
Definition extract_json (rawContent : string) : M jsval :=
  let jsonString := strip_fence rawContent in
  try_catch (parse jsonString)
    (fun parseError =>
       match match_braces rawContent with
       | Some jsonMatch => parse jsonMatch
       | None => throw "Unable to extract valid JSON from Grok response"
       end).

(** [rawContent.trim] is a TypeError unless the content is a string. *)
Definition as_string (v : jsval) : M string :=
  match v with
  | JStr s => ret s
  | _ => throw "TypeError: rawContent.trim is not a function"
  end.

Definition generateAssessment (fd : FormData) : M jsval :=
  try_catch
    (do data <- await (ChatCompletion (prompt_of fd)) (chat_completion w (prompt_of fd));
     do choices <- prop data "choices";
     do choice <- index choices 0;
     do message <- prop choice "message";
     do content <- prop message "content";
     do rawContent <- as_string content;
     extract_json rawContent)
    (fun error => throw "Failed to generate assessment with Grok API").

Definition requiredFields : list string :=
  ["name"; "email"; "company"; "company_size"; "it_challenge"; "consent"].

(** Truth value of [formData[field]]. *)
Definition field_truthy (fd : FormData) (field : string) : bool :=
  if String.eqb field "name" then present (name fd)
  else if String.eqb field "email" then present (email fd)
  else if String.eqb field "company" then present (company fd)
  else if String.eqb field "company_size" then present (company_size fd)
  else if String.eqb field "it_challenge" then present (it_challenge fd)
  else if String.eqb field "consent" then default false (consent fd)
  else false.

Definition missingFields (fd : FormData) : list string :=
  List.filter (fun field => negb (field_truthy fd field)) requiredFields.

(** [missingFields.join(', ')] *)
Fixpoint join (sep : string) (l : list string) : string :=
  match l with
  | [] => ""
  | [x] => x
  | x :: l' => x ++ sep ++ join sep l'
  end.

(** [(now - lastGeneratedTime) / (1000 * 60 * 60)], as an exact quotient.
    The operands are whole numbers of milliseconds and 48 is a double, so
    the rounding of the division does not change the comparison with 48. *)
Definition hoursDifference (now lastGeneratedTime : Z) : Q :=
  (inject_Z (now - lastGeneratedTime) / inject_Z (1000 * 60 * 60))%Q.

(** [new Date()], read after the calls made so far. *)
Definition new_Date : M Z := do h <- history; ret (clock w h).

(** [leadMagnets?.[0]?.lead_magnet_generated || {}] *)
Definition leadMagnetData_of (leadMagnets : list Subscriber.row) : gmap string string :=
  match leadMagnets with
  | r :: _ => default ∅ (Subscriber.lead_magnet_generated r)
  | [] => ∅
  end.

(** Lines 183-194: the honeypot, then the call to the verification
    service. *)
Definition bot_gate (req : Request) : M unit :=
  (if present (honeypot req)
   then respond 403 (BodyError "Bot detected.") else ret tt);;
  do recaptchaResponse <-
    await (CaptchaVerify (text (recaptchaToken req)))
          (siteverify w (text (recaptchaToken req)));
  do success <- prop recaptchaResponse "success";
  if negb (truthy success)
  then respond 403 (BodyError "Bot detected, please try again.") else ret tt.

(** Lines 197-204: the second check of the required fields. *)
Definition required_check (req : Request) : M unit :=
  let fd := formData req in
  (if (negb (is_empty_list (missingFields fd))
       || negb (present (verificationToken req)))%bool
   then respond 400
          (BodyError ("Missing required fields: " ++ join ", " (missingFields fd)
                      ++ " or verificationToken"))
   else ret tt);;
  if negb (default false (consent fd))
  then respond 400 (BodyError "Consent is required.") else ret tt.

(** Lines 206-215: the read of the table. *)
Definition fetch_subscriber (tok : string) : M (list Subscriber.row) :=
  record (SubscribersSelect tok);;
  match select_error w tok with
  | Some fetchError => throw "Error checking subscriber data"
  | None => do db <- table; ret (Table.select tok db)
  end.

(** Lines 220-227: the 48-hour check; an invalid date compares false. *)
Definition throttle (leadMagnetData : gmap string string) : M unit :=
  match leadMagnetData !! "IT Assessment" with
  | Some stamp =>
      if negb (is_empty stamp) then
        do now <- new_Date;
        match Date_parse stamp with
        | Some lastGeneratedTime =>
            if Qle_bool (hoursDifference now lastGeneratedTime) 48
            then respond 200 (BodyMessage "Assessment already generated within 48 hours")
            else ret tt
        | None => ret tt
        end
      else ret tt
  | None => ret tt
  end.

(** Lines 233-245: the write of the timestamp. *)
Definition update_subscriber (fd : FormData) (tok : string)
    (leadMagnetData : gmap string string) : M unit :=
  do now <- new_Date;
  let nowISO := toISOString now in
  let leadMagnetData := <["IT Assessment" := nowISO]> leadMagnetData in
  let r := {| Subscriber.email := text (email fd);
              Subscriber.verification_token := tok;
              Subscriber.lead_magnet_generated := Some leadMagnetData |} in
  record (SubscribersUpsert r);;
  match upsert_error w r with
  | Some updateError => throw "Error updating lead magnet timestamp"
  | None => do db <- table; set_table (Table.upsert r db)
  end.

(** [assessment.assessmentSections[i]] *)
Definition section (assessment : jsval) (i : nat) : M jsval :=
  do sections <- prop assessment "assessmentSections";
  index sections i.

(** Lines 247-292: the render job, the wait, the one read of the job. *)
Definition render (fd : FormData) (assessment : jsval) : M jsval :=
  do today <- new_Date;
  do overview <- section assessment 0;
  do challengeAnalysis <- section assessment 1;
  do recommendations <- section assessment 2;
  do nextSteps <- section assessment 3;
  let payload :=
    {| Payload.name := text (name fd);
       Payload.company := text (company fd);
       Payload.company_size := text (company_size fd);
       Payload.it_challenge := text (it_challenge fd);
       Payload.it_setup := setup_or_default fd;
       Payload.date := before_T (toISOString today);
       Payload.overview := overview;
       Payload.challengeAnalysis := challengeAnalysis;
       Payload.recommendations := recommendations;
       Payload.nextSteps := nextSteps |} in
  do pdfResponse <- await (RenderCreate payload) (render_create w payload);
  do document <- prop pdfResponse "document";
  do documentId <- prop document "id";
  record (Sleep 20000);;
  do pdfUrlResponse <- await (RenderFetch documentId) (render_fetch w documentId);
  do document' <- prop pdfUrlResponse "document";
  prop document' "download_url".

(** Lines 295-305: the mail. *)
Definition notify (fd : FormData) (pdfUrl : jsval) : M unit :=
  let m := {| Mail.to := text (email fd);
              Mail.subject := "Your IT Assessment from Betechpro";
              Mail.name := text (name fd);
              Mail.company := text (company fd);
              Mail.pdfUrl := pdfUrl |} in
  record (SendMail m);;
  if sendMail w m then ret tt else throw "Mail transport failed".

(** Lines 233-310: what follows the generation. *)
Definition deliver (fd : FormData) (tok : string)
    (leadMagnetData : gmap string string) (assessment : jsval) : M Response :=
  update_subscriber fd tok leadMagnetData;;
  do pdfUrl <- render fd assessment;
  notify fd pdfUrl;;
  respond 200 (BodyGenerated "Assessment generated and emailed successfully" pdfUrl).

(** The body of the [try] block, lines 182-310. *)
Definition pipeline (req : Request) : M Response :=
  let fd := formData req in
  bot_gate req;;
  required_check req;;
  let tok := text (verificationToken req) in
  do leadMagnets <- fetch_subscriber tok;
  let leadMagnetData := leadMagnetData_of leadMagnets in
  throttle leadMagnetData;;
  do assessment <- generateAssessment fd;
  deliver fd tok leadMagnetData assessment.

(** The route: the validation result first, then the [try] block with its
    [catch]. *)
Definition handler (req : Request) : M Response :=
  let '(errors, req') := Validator.validate req in
  if negb (is_empty_list errors)
  then respond 400 (BodyErrors errors)
  else
    try_catch (pipeline req')
      (fun error => respond 500 (BodyError "Failed to generate or email assessment")).

(** One request against a table: the response, the calls, the table left. *)
Definition serve (req : Request) (db : list Subscriber.row)
  : option Response * list Call * list Subscriber.row :=
  match handler req {| calls := []; subscribers := db |} with
  | (st, Returns r) => (Some r, calls st, subscribers st)
  | (st, _) => (None, calls st, subscribers st)
  end.

End Handler.

(** ** A reference runtime *)

Module Reference.

Definition digit (n : Z) : ascii := ascii_of_nat (48 + Z.to_nat (n mod 10)).

(** [n] in decimal, on [width] digits. *)
Fixpoint pad (width : nat) (n : Z) : string :=
  match width with
  | O => EmptyString
  | S k => (pad k (n / 10) ++ String (digit n) EmptyString)%string
  end.

(** Civil date of a day number counted from 1970-01-01. *)
Definition civil_from_days (z : Z) : Z * Z * Z :=
  let z := z + 719468 in
  let era := z / 146097 in
  let doe := z - era * 146097 in
  let yoe := (doe - doe / 1460 + doe / 36524 - doe / 146096) / 365 in
  let doy := doe - (365 * yoe + yoe / 4 - yoe / 100) in
  let mp := (5 * doy + 2) / 153 in
  let d := doy - (153 * mp + 2) / 5 + 1 in
  let m := if mp <? 10 then mp + 3 else mp - 9 in
  let y := yoe + era * 400 + (if m <=? 2 then 1 else 0) in
  (y, m, d).

Definition days_from_civil (y m d : Z) : Z :=
  let y := y - (if m <=? 2 then 1 else 0) in
  let era := y / 400 in
  let yoe := y - era * 400 in
  let doy := (153 * (if 2 <? m then m - 3 else m + 9) + 2) / 5 + d - 1 in
  let doe := yoe * 365 + yoe / 4 - yoe / 100 + doy in
  era * 146097 + doe - 719468.

(** [Date.prototype.toISOString], for the years 0000 to 9999. *)
Definition to_iso_string (t : Z) : string :=
  let day := t / 86400000 in
  let ms := t mod 86400000 in
  let '(y, m, d) := civil_from_days day in
  (pad 4 y ++ "-" ++ pad 2 m ++ "-" ++ pad 2 d ++ "T"
   ++ pad 2 (ms / 3600000) ++ ":" ++ pad 2 (ms / 60000 mod 60) ++ ":"
   ++ pad 2 (ms / 1000 mod 60) ++ "." ++ pad 3 (ms mod 1000) ++ "Z")%string.

Fixpoint number (s : string) (acc : Z) : Z :=
  match s with
  | EmptyString => acc
  | String c s' => number s' (acc * 10 + Z.of_nat (nat_of_ascii c) - 48)
  end.

Definition field (s : string) (from len : nat) : Z :=
  number (String.substring from len s) 0.

(** The time value of [new Date(s)] for a text of the form written by
    [to_iso_string]; any other text is taken as an invalid date. *)
Definition date_parse (s : string) : option Z :=
  let t := days_from_civil (field s 0 4) (field s 5 2) (field s 8 2) * 86400000
           + field s 11 2 * 3600000 + field s 14 2 * 60000
           + field s 17 2 * 1000 + field s 20 3 in
  if String.eqb (to_iso_string t) s then Some t else None.

(** validator.js [escape]. *)
Definition escape_char (c : ascii) : string :=
  let n := nat_of_ascii c in
  if Nat.eqb n 38 then "&amp;"
  else if Nat.eqb n 34 then "&quot;"
  else if Nat.eqb n 39 then "&#x27;"
  else if Nat.eqb n 60 then "&lt;"
  else if Nat.eqb n 62 then "&gt;"
  else if Nat.eqb n 47 then "&#x2F;"
  else if Nat.eqb n 92 then "&#x5C;"
  else if Nat.eqb n 96 then "&#96;"
  else String c EmptyString.

Fixpoint escape_html (s : string) : string :=
  match s with
  | EmptyString => EmptyString
  | String c s' => (escape_char c ++ escape_html s')%string
  end.

(** A plain address: a local part and a dotted domain of letters, digits
    and a few marks, around one [@]. *)
Definition address_char (c : ascii) : bool :=
  let n := nat_of_ascii c in
  ((Nat.leb 48 n && Nat.leb n 57) || (Nat.leb 65 n && Nat.leb n 90)
   || (Nat.leb 97 n && Nat.leb n 122) || Nat.eqb n 45 || Nat.eqb n 46
   || Nat.eqb n 95)%bool.

Fixpoint split_at (s : string) : option (string * string) :=
  match s with
  | EmptyString => None
  | String c s' =>
      if Ascii.eqb c "@" then Some (EmptyString, s')
      else match split_at s' with
           | Some (l, d) => Some (String c l, d)
           | None => None
           end
  end.

Fixpoint all_chars (p : ascii -> bool) (s : string) : bool :=
  match s with
  | EmptyString => true
  | String c s' => (p c && all_chars p s')%bool
  end.

(** Labels of a domain: non-empty, at least two of them. *)
Fixpoint labels (s : string) (current : nat) (seen : nat) : bool :=
  match s with
  | EmptyString => (Nat.ltb 0 current && Nat.ltb 0 seen)%bool
  | String c s' =>
      if Ascii.eqb c "." then (Nat.ltb 0 current && labels s' 0 (S seen))%bool
      else labels s' (S current) seen
  end.

Definition is_email (s : string) : bool :=
  match split_at s with
  | Some (l, d) =>
      (negb (is_empty l) && all_chars address_char l
       && all_chars address_char d && labels d 0 0)%bool
  | None => false
  end.

Definition lower (c : ascii) : ascii :=
  let n := nat_of_ascii c in
  if (Nat.leb 65 n && Nat.leb n 90)%bool then ascii_of_nat (n + 32) else c.

Fixpoint lowercase (s : string) : string :=
  match s with
  | EmptyString => EmptyString
  | String c s' => String (lower c) (lowercase s')
  end.

(** [normalizeEmail] for a domain without provider rules: lower case. *)
Definition normalize_email (s : string) : option string :=
  if is_email s then Some (lowercase s) else None.

#[export] Instance runtime : Runtime := {|
  isEmail := is_email;
  normalizeEmail := normalize_email;
  escape := escape_html;
  JSON_parse := Json.parse;
  Date_parse := date_parse;
  toISOString := to_iso_string
|}.

End Reference.

(** * Vocabulary of the properties *)

Section Vocabulary.
Context `{Runtime}.
Variable w : World.

(** The state after more calls. *)
Definition logged (st : St) (l : list Call) : St :=
  {| calls := (calls st ++ l)%list; subscribers := subscribers st |}.

Definition fresh (db : list Subscriber.row) : St := {| calls := []; subscribers := db |}.

Definition failure : Response :=
  {| status := 500; body := BodyError "Failed to generate or email assessment" |}.

(** A required field that is absent or that its chain refuses, with the
    path of the field. The length of a text is taken after [trim], as the
    chain does. *)
Inductive violation (req : Request) : string -> Prop :=
  | name_missing : name (formData req) = None -> violation req "formData.name"
  | name_length :
      Validator.isLength 1 50 (trim (Validator.toString (name (formData req))))
      = false ->
      violation req "formData.name"
  | email_missing : email (formData req) = None -> violation req "formData.email"
  | email_shape :
      isEmail (Validator.toString (email (formData req))) = false ->
      violation req "formData.email"
  | company_missing :
      company (formData req) = None -> violation req "formData.company"
  | company_length :
      Validator.isLength 1 100 (trim (Validator.toString (company (formData req))))
      = false ->
      violation req "formData.company"
  | company_size_missing :
      company_size (formData req) = None -> violation req "formData.company_size"
  | company_size_enum :
      Validator.isIn Validator.company_sizes
        (Validator.toString (company_size (formData req)))
      = false ->
      violation req "formData.company_size"
  | it_challenge_missing :
      it_challenge (formData req) = None -> violation req "formData.it_challenge"
  | it_challenge_length :
      Validator.isLength 1 100
        (trim (Validator.toString (it_challenge (formData req))))
      = false ->
      violation req "formData.it_challenge"
  | consent_missing :
      consent (formData req) = None -> violation req "formData.consent"
  | consent_false :
      consent (formData req) = Some false -> violation req "formData.consent".

(** The request passes the validation, the bot gate and the second check
    of the fields, and the table is read without error: it reaches the
    48-hour check. [req'] is the body as the sanitizers leave it. *)
Record reaches_check (req req' : Request) : Prop := {
  rc_valid : Validator.validate req = ([], req');
  rc_honeypot : present (honeypot req') = false;
  rc_human :
    exists data success,
      siteverify w (text (recaptchaToken req')) = Some data
      /\ get_prop data "success" = Some success
      /\ truthy success = true;
  rc_fields : missingFields (formData req') = [];
  rc_token : present (verificationToken req') = true;
  rc_read : select_error w (text (verificationToken req')) = None
}.

(** The calls made on the way to the check. *)
Definition lookup_calls (req' : Request) : list Call :=
  [CaptchaVerify (text (recaptchaToken req'));
   SubscribersSelect (text (verificationToken req'))].

(** The map of the record found for the token. *)
Definition fetched (req' : Request) (db : list Subscriber.row) : gmap string string :=
  leadMagnetData_of (Table.select (text (verificationToken req')) db).

(** What is left to run once the check is reached. *)
Definition from_check (req' : Request) (db : list Subscriber.row) : M Response :=
  bind (throttle w (fetched req' db)) (fun _ =>
  bind (generateAssessment w (formData req')) (fun assessment =>
  deliver w (formData req') (text (verificationToken req')) (fetched req' db)
    assessment)).

(** The stamp is absent, empty, not a date, or older than 48 hours. *)
Definition stale (lm : gmap string string) (now : Z) : Prop :=
  match lm !! "IT Assessment" with
  | None => True
  | Some stamp =>
      is_empty stamp = true
      \/ match Date_parse stamp with
         | None => True
         | Some last => 48 * 3600000 < now - last
         end
  end.

(** The outcome of [extract_json], which does not touch the state. *)
Definition extraction (rawContent : string) : Outcome jsval :=
  snd (extract_json rawContent (fresh [])).

(** [response.data.choices[0].message.content] *)
Definition content_of (data : jsval) : option jsval :=
  choices ← get_prop data "choices";
  choice ← get_index choices 0;
  message ← get_prop choice "message";
  get_prop message "content".

Definition generation_failure : string := "Failed to generate assessment with Grok API".

(** The row written by the state updater at time [now]. *)
Definition stamped_row (fd : FormData) (tok : string)
    (leadMagnetData : gmap string string) (now : Z) : Subscriber.row :=
  {| Subscriber.email := text (email fd);
     Subscriber.verification_token := tok;
     Subscriber.lead_magnet_generated :=
       Some (<["IT Assessment" := toISOString now]> leadMagnetData) |}.

(** The calls of the renderer: they come in this order and stop at the
    first failure. *)
Inductive render_calls : list Call -> Prop :=
  | render_none : render_calls []
  | render_created p : render_calls [RenderCreate p]
  | render_fetched p id : render_calls [RenderCreate p; Sleep 20000; RenderFetch id].

Definition mail_of (fd : FormData) (pdfUrl : jsval) : Mail.t :=
  {| Mail.to := text (email fd);
     Mail.subject := "Your IT Assessment from Betechpro";
     Mail.name := text (name fd);
     Mail.company := text (company fd);
     Mail.pdfUrl := pdfUrl |}.

Definition success (pdfUrl : jsval) : Response :=
  {| status := 200;
     body := BodyGenerated "Assessment generated and emailed successfully" pdfUrl |}.

(** A call of the renderer or of the notifier. *)
Definition delivery_call (c : Call) : bool :=
  match c with
  | RenderCreate _ | Sleep _ | RenderFetch _ | SendMail _ => true
  | _ => false
  end.

(** The answer of the route for an outcome of the [try] block. *)
Definition answer (o : Outcome Response) : option Response :=
  match o with
  | Returns r => Some r
  | Throws _ => Some failure
  | Value _ => None
  end.

Definition already_generated : Response :=
  {| status := 200; body := BodyMessage "Assessment already generated within 48 hours" |}.

(** The calls up to and including the one to the completion API. *)
Definition generation_calls (req' : Request) : list Call :=
  (lookup_calls req' ++ [ChatCompletion (prompt_of (formData req'))])%list.

(** *** From the generation to the delivery *)

(** The completion API answers with a content from which [assessment] is
    extracted. *)
Definition generates (fd : FormData) (assessment : jsval) : Prop :=
  exists data rawContent,
    chat_completion w (prompt_of fd) = Some data
    /\ content_of data = Some (JStr rawContent)
    /\ extraction rawContent = Value assessment.

(** [assessment.assessmentSections] can be indexed. *)
Definition has_sections (assessment : jsval) : Prop :=
  exists secs,
    get_prop assessment "assessmentSections" = Some secs /\ nullish secs = false.

(** The render service creates the job [id], and the read of that job
    answers with a document whose [download_url] is [url]; nothing is asked
    of the other fields of the document, its status included. *)
Definition renders (id url : jsval) : Prop :=
  exists pdata doc fdata fdoc,
    (forall p, render_create w p = Some pdata)
    /\ get_prop pdata "document" = Some doc
    /\ get_prop doc "id" = Some id
    /\ render_fetch w id = Some fdata
    /\ get_prop fdata "document" = Some fdoc
    /\ get_prop fdoc "download_url" = Some url.

(** The row written for a request, stamped with the clock read after the
    completion call. *)
Definition written_row (req' : Request) (db : list Subscriber.row) : Subscriber.row :=
  stamped_row (formData req') (text (verificationToken req')) (fetched req' db)
    (clock w (generation_calls req')).

(** *** Counting the calls *)

Definition count (p : Call -> bool) (l : list Call) : nat :=
  List.length (List.filter p l).


Definition is_upsert (c : Call) : bool :=
  match c with SubscribersUpsert _ => true | _ => false end.


Definition is_render_fetch (c : Call) : bool :=
  match c with RenderFetch _ => true | _ => false end.

Definition is_sleep (c : Call) : bool :=
  match c with Sleep _ => true | _ => false end.

Definition is_mail (c : Call) : bool :=
  match c with SendMail _ => true | _ => false end.

(** The text inside the markers of [strip_fence]. *)
Definition fenced (jsonString : string) : bool :=
  (startsWith jsonString "```" && endsWith jsonString "```")%bool.

End Vocabulary.

(** ** A concrete setting *)

Module Example.

Import Reference.

Definition quoted (s : string) : string :=
  String Json.dquote (s ++ String Json.dquote EmptyString).

Definition form : FormData :=
  {| name := Some " Ada ";
     email := Some "Ada@Example.com";
     company := Some "Engines & Co";
     company_size := Some "11-50";
     it_challenge := Some "cybersecurity-risks";
     it_setup := None;
     consent := Some true |}.

Definition req : Request :=
  {| formData := form;
     verificationToken := Some "tok-1";
     honeypot := None;
     recaptchaToken := Some "captcha-ok" |}.

(** The body as the sanitizers leave it. *)
Definition clean : Request := Eval vm_compute in snd (Validator.validate req).

(** The completion: a fenced object with four sections. *)
Definition completion_text : string :=
  "```json" ++ "{" ++ quoted "company" ++ ":" ++ quoted "Engines" ++ ","
  ++ quoted "assessmentSections" ++ ":["
  ++ quoted "Overview" ++ "," ++ quoted "Analysis" ++ ","
  ++ quoted "Recommendations" ++ "," ++ quoted "Next Steps" ++ "]}" ++ "```".

Definition assessment : jsval :=
  JObj [("company", JStr "Engines");
        ("assessmentSections",
         JArr [JStr "Overview"; JStr "Analysis"; JStr "Recommendations";
               JStr "Next Steps"])].

(** At noon on 2026-11-01, one second per call made. *)
Definition world : World :=
  {| clock := fun h => 1793534400000 + 1000 * Z.of_nat (List.length h);
     siteverify := fun token =>
       Some (JObj [("success", JBool (String.eqb token "captcha-ok"))]);
     select_error := fun _ => None;
     chat_completion := fun _ =>
       Some (JObj [("choices",
                    JArr [JObj [("message",
                                 JObj [("content", JStr completion_text)])]])]);
     upsert_error := fun _ => None;
     render_create := fun _ =>
       Some (JObj [("document",
                    JObj [("id", JStr "doc-1"); ("status", JStr "pending")])]);
     render_fetch := fun _ =>
       Some (JObj [("document",
                    JObj [("id", JStr "doc-1"); ("status", JStr "success");
                          ("download_url", JStr "https://files.example/doc-1.pdf")])]);
     sendMail := fun _ => true |}.

(** The same, with a render job that has failed when it is read. *)
Definition world_unrendered : World :=
  {| clock := clock world;
     siteverify := siteverify world;
     select_error := select_error world;
     chat_completion := chat_completion world;
     upsert_error := upsert_error world;
     render_create := render_create world;
     render_fetch := fun _ =>
       Some (JObj [("document",
                    JObj [("id", JStr "doc-1"); ("status", JStr "failure")])]);
     sendMail := sendMail world |}.

(** The same, with a mail transport that refuses the message. *)
Definition world_no_mail : World :=
  {| clock := clock world;
     siteverify := siteverify world;
     select_error := select_error world;
     chat_completion := chat_completion world;
     upsert_error := upsert_error world;
     render_create := render_create world;
     render_fetch := render_fetch world;
     sendMail := fun _ => false |}.

(** The same, with a verification service that answers [success: false]. *)
Definition world_bot : World :=
  {| clock := clock world;
     siteverify := fun _ => Some (JObj [("success", JBool false)]);
     select_error := select_error world;
     chat_completion := chat_completion world;
     upsert_error := upsert_error world;
     render_create := render_create world;
     render_fetch := render_fetch world;
     sendMail := sendMail world |}.

(** The same, with a completion that is prose. *)
Definition world_prose : World :=
  {| clock := clock world;
     siteverify := siteverify world;
     select_error := select_error world;
     chat_completion := fun _ =>
       Some (JObj [("choices",
                    JArr [JObj [("message",
                                 JObj [("content", JStr "I cannot help with that.")])]])]);
     upsert_error := upsert_error world;
     render_create := render_create world;
     render_fetch := render_fetch world;
     sendMail := sendMail world |}.

Definition subscriber (stamp : string) : Subscriber.row :=
  {| Subscriber.email := "ada@example.com";
     Subscriber.verification_token := "tok-1";
     Subscriber.lead_magnet_generated :=
       Some (<["IT Assessment" := stamp]> (<["Security Checklist" :=
                 "2026-09-15T08:30:00.000Z"]> ∅)) |}.

(** A stamp of twelve hours before the request, and one of a month
    before. *)
Definition db_recent : list Subscriber.row := [subscriber "2026-11-01T00:00:00.000Z"].
Definition db_stale : list Subscriber.row := [subscriber "2026-10-01T00:00:00.000Z"].

(** A stamp of nine days after the request. *)
Definition db_future : list Subscriber.row := [subscriber "2026-11-10T00:00:00.000Z"].

(** A submission without consent, and one with the honeypot filled. *)
Definition req_no_consent : Request :=
  {| formData :=
       {| name := name form; email := email form; company := company form;
          company_size := company_size form; it_challenge := it_challenge form;
          it_setup := it_setup form; consent := Some false |};
     verificationToken := verificationToken req;
     honeypot := honeypot req;
     recaptchaToken := recaptchaToken req |}.

Definition req_honeypot : Request :=
  {| formData := form;
     verificationToken := verificationToken req;
     honeypot := Some "https://spam.example";
     recaptchaToken := recaptchaToken req |}.

Definition clean_honeypot : Request :=
  Eval vm_compute in snd (Validator.validate req_honeypot).

End Example.

(** * Vocabulary of the runs *)

Section Runs.
Context `{Runtime}.
Variable w : World.

(** The service a call goes to, and the order in which the route calls
    them. *)
Inductive Kind : Type :=
  | KCaptcha | KSelect | KCompletion | KUpsert
  | KCreate | KSleep | KFetch | KMail.

Definition kind (c : Call) : Kind :=
  match c with
  | CaptchaVerify _ => KCaptcha
  | SubscribersSelect _ => KSelect
  | ChatCompletion _ => KCompletion
  | SubscribersUpsert _ => KUpsert
  | RenderCreate _ => KCreate
  | Sleep _ => KSleep
  | RenderFetch _ => KFetch
  | SendMail _ => KMail
  end.

Definition pipeline_order : list Kind :=
  [KCaptcha; KSelect; KCompletion; KUpsert; KCreate; KSleep; KFetch; KMail].

(** The answers of the route other than the success and the generic
    failure. *)
Definition bot_detected : Response :=
  {| status := 403; body := BodyError "Bot detected." |}.

Definition bot_retry : Response :=
  {| status := 403; body := BodyError "Bot detected, please try again." |}.

Definition missing_fields (req' : Request) : Response :=
  {| status := 400;
     body := BodyError ("Missing required fields: "
                        ++ join ", " (missingFields (formData req'))
                        ++ " or verificationToken") |}.

Definition consent_required : Response :=
  {| status := 400; body := BodyError "Consent is required." |}.

(** The stamp is there, is a date, and is at most 48 hours before [now]. *)
Definition recent (lm : gmap string string) (now : Z) : Prop :=
  exists stamp last,
    lm !! "IT Assessment" = Some stamp
    /\ is_empty stamp = false
    /\ Date_parse stamp = Some last
    /\ now - last <= 48 * 3600000.

(** The call to the verification service of a request. *)
Definition captcha_call (req' : Request) : Call :=
  CaptchaVerify (text (recaptchaToken req')).

(** The runs of the [try] block for a body [req'] that passed the
    validation, on a table [db]: the answer, the calls, the table left. *)
Inductive run (req' : Request) (db : list Subscriber.row)
  : Response -> list Call -> list Subscriber.row -> Prop :=
  | run_honeypot :
      present (honeypot req') = true ->
      run req' db bot_detected [] db
  | run_captcha_failed :
      run req' db failure [captcha_call req'] db
  | run_captcha_refused :
      run req' db bot_retry [captcha_call req'] db
  | run_missing_fields :
      (missingFields (formData req') <> []
       \/ present (verificationToken req') = false) ->
      run req' db (missing_fields req') [captcha_call req'] db
  | run_select_failed :
      run req' db failure (lookup_calls req') db
  | run_recent :
      recent (fetched req' db) (clock w (lookup_calls req')) ->
      run req' db already_generated (lookup_calls req') db
  | run_generation_failed :
      stale (fetched req' db) (clock w (lookup_calls req')) ->
      run req' db failure (generation_calls req') db
  | run_upsert_refused :
      upsert_error w (written_row w req' db) <> None ->
      run req' db failure
        (generation_calls req' ++ [SubscribersUpsert (written_row w req' db)])%list db
  | run_render_failed l :
      upsert_error w (written_row w req' db) = None ->
      render_calls l ->
      run req' db failure
        (generation_calls req' ++ SubscribersUpsert (written_row w req' db) :: l)%list
        (Table.upsert (written_row w req' db) db)
  | run_mail_failed p id url :
      upsert_error w (written_row w req' db) = None ->
      sendMail w (mail_of (formData req') url) = false ->
      run req' db failure
        (generation_calls req'
         ++ [SubscribersUpsert (written_row w req' db); RenderCreate p; Sleep 20000;
             RenderFetch id; SendMail (mail_of (formData req') url)])%list
        (Table.upsert (written_row w req' db) db)
  | run_delivered p id url :
      upsert_error w (written_row w req' db) = None ->
      render_create w p <> None ->
      render_fetch w id <> None ->
      sendMail w (mail_of (formData req') url) = true ->
      run req' db (success url)
        (generation_calls req'
         ++ [SubscribersUpsert (written_row w req' db); RenderCreate p; Sleep 20000;
             RenderFetch id; SendMail (mail_of (formData req') url)])%list
        (Table.upsert (written_row w req' db) db).

(** A body on which every chain of the route passes. *)
Record well_formed (req : Request) : Prop := {
  wf_name :
    exists n, name (formData req) = Some n
              /\ Validator.isLength 1 50 (trim n) = true;
  wf_email :
    exists e, email (formData req) = Some e /\ isEmail e = true;
  wf_company :
    exists c, company (formData req) = Some c
              /\ Validator.isLength 1 100 (trim c) = true;
  wf_company_size :
    exists z, company_size (formData req) = Some z /\ In z Validator.company_sizes;
  wf_it_challenge :
    exists c, it_challenge (formData req) = Some c
              /\ Validator.isLength 1 100 (trim c) = true;
  wf_it_setup :
    forall u, it_setup (formData req) = Some u ->
              (String.length (trim u) <= 200)%nat;
  wf_consent : consent (formData req) = Some true;
  wf_recaptchaToken :
    exists t, recaptchaToken req = Some t /\ is_empty t = false
}.

(** The body as the sanitizers leave it, for a well-formed body. *)
Definition sanitized (req : Request) : Request :=
  let fd := formData req in
  {| formData :=
       {| name := Some (escape (trim (Validator.toString (name fd))));
          email := normalizeEmail (Validator.toString (email fd));
          company := Some (escape (trim (Validator.toString (company fd))));
          company_size := company_size fd;
          it_challenge := Some (escape (trim (Validator.toString (it_challenge fd))));
          it_setup := option_map (fun u => escape (trim u)) (it_setup fd);
          consent := consent fd |};
     verificationToken := verificationToken req;
     honeypot := honeypot req;
     recaptchaToken := recaptchaToken req |}.

(** A character does not occur in a text. *)
Fixpoint lacks (c : ascii) (s : string) : bool :=
  match s with
  | EmptyString => true
  | String d s' => (negb (Ascii.eqb d c) && lacks c s')%bool
  end.

End Runs.

(** ** Further settings *)

Module Scenario.

Import Reference Example.

(** The setting of [Example.world] with one service changed. *)
Definition world_outage : World :=
  {| clock := clock world;
     siteverify := fun _ => None;
     select_error := select_error world;
     chat_completion := chat_completion world;
     upsert_error := upsert_error world;
     render_create := render_create world;
     render_fetch := render_fetch world;
     sendMail := sendMail world |}.

Definition world_read_error : World :=
  {| clock := clock world;
     siteverify := siteverify world;
     select_error := fun _ => Some "connection refused";
     chat_completion := chat_completion world;
     upsert_error := upsert_error world;
     render_create := render_create world;
     render_fetch := render_fetch world;
     sendMail := sendMail world |}.

Definition world_refusing : World :=
  {| clock := clock world;
     siteverify := siteverify world;
     select_error := select_error world;
     chat_completion := chat_completion world;
     upsert_error := fun _ => Some "permission denied";
     render_create := render_create world;
     render_fetch := render_fetch world;
     sendMail := sendMail world |}.

(** A completion that is an object without sections. *)
Definition world_sectionless : World :=
  {| clock := clock world;
     siteverify := siteverify world;
     select_error := select_error world;
     chat_completion := fun _ =>
       Some (JObj [("choices",
                    JArr [JObj [("message",
                                 JObj [("content", JStr "{}")])]])]);
     upsert_error := upsert_error world;
     render_create := render_create world;
     render_fetch := render_fetch world;
     sendMail := sendMail world |}.

(** One hour later. *)
Definition world_later : World :=
  {| clock := fun h => clock world h + 3600000;
     siteverify := siteverify world;
     select_error := select_error world;
     chat_completion := chat_completion world;
     upsert_error := upsert_error world;
     render_create := render_create world;
     render_fetch := render_fetch world;
     sendMail := sendMail world |}.

(** The request of [Example.req] without its verification token. *)
Definition req_no_token : Request :=
  {| formData := form;
     verificationToken := None;
     honeypot := honeypot req;
     recaptchaToken := recaptchaToken req |}.

Definition clean_no_token : Request :=
  Eval vm_compute in snd (Validator.validate req_no_token).

(** A completion with text around the object. *)
Definition prose_before : string := "Here is the assessment: ".
Definition prose_object : string := quoted "company" ++ ":" ++ quoted "Engines".
Definition prose_after : string := " I hope it helps.".

End Scenario.

(** * Properties *)

Arguments get_prop : simpl never.
Arguments get_index : simpl never.
Arguments truthy : simpl never.
Arguments trim : simpl never.
Arguments strip_fence : simpl never.
Arguments match_braces : simpl never.
Arguments Table.select : simpl never.
Arguments Table.upsert : simpl never.
Arguments Validator.validate : simpl never.
Arguments missingFields : simpl never.
Arguments hoursDifference : simpl never.
Arguments Qle_bool : simpl never.

(** ** Steps of the monad *)

Section Steps.
Context {A B : Type}.

Lemma bind_value (m : M A) (k : A -> M B) st st' a :
  m st = (st', Value a) -> bind m k st = k a st'.
Proof. intros E. unfold bind. now rewrite E. Qed.

Lemma bind_throws (m : M A) (k : A -> M B) st st' e :
  m st = (st', Throws e) -> bind m k st = (st', Throws e).
Proof. intros E. unfold bind. now rewrite E. Qed.

Lemma bind_returns (m : M A) (k : A -> M B) st st' r :
  m st = (st', Returns r) -> bind m k st = (st', Returns r).
Proof. intros E. unfold bind. now rewrite E. Qed.

Lemma try_catch_value (m : M A) h st st' a :
  m st = (st', Value a) -> try_catch m h st = (st', Value a).
Proof. intros E. unfold try_catch. now rewrite E. Qed.

Lemma try_catch_throws (m : M A) h st st' e :
  m st = (st', Throws e) -> try_catch m h st = h e st'.
Proof. intros E. unfold try_catch. now rewrite E. Qed.

Lemma try_catch_returns (m : M A) h st st' r :
  m st = (st', Returns r) -> try_catch m h st = (st', Returns r).
Proof. intros E. unfold try_catch. now rewrite E. Qed.

End Steps.

Lemma logged_nil st : logged st [] = st.
Proof. destruct st. unfold logged. simpl. now rewrite app_nil_r. Qed.

Lemma logged_logged st l l' : logged (logged st l) l' = logged st (l ++ l')%list.
Proof. unfold logged. simpl. now rewrite <- app_assoc. Qed.

Section Gate.
Context `{Runtime}.
Variable w : World.

(** *** Validation *)

Lemma handler_invalid req st :
  fst (Validator.validate req) <> [] ->
  handler w req st
  = (st, Returns {| status := 400; body := BodyErrors (fst (Validator.validate req)) |}).
Proof.
  intros Hne. unfold handler.
  destruct (Validator.validate req) as [errors req'].
  destruct errors; [now contradiction Hne|]. reflexivity.
Qed.

Lemma handler_valid req req' st :
  Validator.validate req = ([], req') ->
  handler w req st
  = try_catch (pipeline w req') (fun _ => respond 500 (body failure)) st.
Proof. intros E. unfold handler. now rewrite E. Qed.

End Gate.

(** ** Input validator *)

Section InputValidator.
Context `{Runtime}.
Variable w : World.

Import Validator.

Lemma trim_empty : trim "" = "".
Proof. reflexivity. Qed.

Lemma check_false path : In (invalid path) (check false path).
Proof. now left. Qed.

Lemma violation_reported (Hempty : isEmail "" = false) req path :
  violation req path -> In (invalid path) (fst (validate req)).
Proof.
  intros V. unfold validate, text_chain. cbn [fst].
  destruct (it_setup (formData req)); cbn [fst];
    rewrite !in_app_iff;
    destruct V as [E|E|E|E|E|E|E|E|E|E|E|E];
    rewrite ?E; cbn [toString default boolToString]; rewrite ?trim_empty, ?Hempty;
    cbn; tauto.
Qed.

(** C2. A submission in which a required field (name, email, company,
    company_size, it_challenge, consent) is absent or refused by its chain,
    or in which consent is false, is answered with status 400 and the list
    of validation errors, which names the field; no outbound call is made
    and the table is left as it was. *)
Theorem invalid_submission_rejected req path db :
  isEmail "" = false ->
  violation req path ->
  exists errors,
    In (invalid path) errors
    /\ serve w req db
       = (Some {| status := 400; body := BodyErrors errors |}, [], db).
Proof.
  intros Hempty V.
  pose proof (violation_reported Hempty req path V) as Hin.
  exists (fst (validate req)). split; [exact Hin|].
  unfold serve. rewrite handler_invalid; [reflexivity|].
  intros E. rewrite E in Hin. destruct Hin.
Qed.

End InputValidator.

(** ** Bot gate *)

Section BotGate.
Context `{Runtime}.
Variable w : World.

(** The sanitizers leave the fields outside [formData] as they came. *)
Lemma validate_envelope req errors req' :
  Validator.validate req = (errors, req') ->
  honeypot req' = honeypot req
  /\ recaptchaToken req' = recaptchaToken req
  /\ verificationToken req' = verificationToken req.
Proof.
  unfold Validator.validate, Validator.text_chain.
  destruct (it_setup (formData req)); intros E; inversion E; subst; cbn; auto.
Qed.

Lemma bot_gate_honeypot req st :
  present (honeypot req) = true ->
  bot_gate w req st
  = (st, Returns {| status := 403; body := BodyError "Bot detected." |}).
Proof. intros E. unfold bot_gate, bind. now rewrite E. Qed.

Lemma bot_gate_verdict req st data success :
  present (honeypot req) = false ->
  siteverify w (text (recaptchaToken req)) = Some data ->
  get_prop data "success" = Some success ->
  bot_gate w req st
  = (logged st [CaptchaVerify (text (recaptchaToken req))],
     if truthy success then Value tt
     else Returns {| status := 403;
                     body := BodyError "Bot detected, please try again." |}).
Proof.
  intros Eh Es Ep. unfold bot_gate, bind, await, bind, prop. rewrite Eh, Es. cbn.
  rewrite Ep. cbn. now destruct (truthy success).
Qed.

(** C3. A submission that passes the validation and carries a non-empty
    honeypot is answered with status 403 and [Bot detected.]; the
    verification service is not called, nor anything after it. *)
Theorem honeypot_rejected req req' db :
  Validator.validate req = ([], req') ->
  present (honeypot req) = true ->
  serve w req db
  = (Some {| status := 403; body := BodyError "Bot detected." |}, [], db).
Proof.
  intros V Hp. destruct (validate_envelope _ _ _ V) as (Eh & _).
  rewrite <- Eh in Hp.
  pose proof (bot_gate_honeypot req' (fresh db) Hp) as G.
  unfold serve. rewrite (handler_valid w _ _ _ V).
  unfold pipeline.
  now rewrite (try_catch_returns _ _ _ _ _ (bind_returns _ _ _ _ _ G)).
Qed.

(** C4. A submission that passes the validation with an empty honeypot and
    for which the verification service answers with a [success] that is not
    true ([false] in particular) is answered with status 403 and
    [Bot detected, please try again.]; the only call made is the one to the
    verification service, so the completion API is not invoked. *)
Theorem captcha_failure_rejected req req' db data success :
  Validator.validate req = ([], req') ->
  present (honeypot req) = false ->
  siteverify w (text (recaptchaToken req)) = Some data ->
  get_prop data "success" = Some success ->
  truthy success = false ->
  serve w req db
  = (Some {| status := 403; body := BodyError "Bot detected, please try again." |},
     [CaptchaVerify (text (recaptchaToken req))], db).
Proof.
  intros V Hp Es Ep Et. destruct (validate_envelope _ _ _ V) as (Eh & Er & _).
  rewrite <- Eh in Hp. rewrite <- Er in Es.
  pose proof (bot_gate_verdict req' (fresh db) data success Hp Es Ep) as G.
  rewrite Et, Er in G.
  unfold serve. rewrite (handler_valid w _ _ _ V).
  unfold pipeline.
  now rewrite (try_catch_returns _ _ _ _ _ (bind_returns _ _ _ _ _ G)).
Qed.

End BotGate.

(** ** Idempotence checker *)

Lemma hoursDifference_le now last :
  Qle_bool (hoursDifference now last) 48 = (now - last <=? 48 * 3600000).
Proof.
  unfold hoursDifference.
  change (inject_Z (1000 * 60 * 60)) with (3600000 # 1)%Q.
  unfold Qle_bool, Qdiv, Qmult, Qinv, inject_Z. cbn [Qnum Qden].
  apply eq_iff_eq_true. rewrite !Z.leb_le.
  change (Z.pos (1 * 3600000)) with 3600000. lia.
Qed.

Section Idempotence.
Context `{Runtime}.
Variable w : World.

Lemma consent_of_fields fd :
  missingFields fd = [] -> default false (consent fd) = true.
Proof.
  intros E. destruct (default false (consent fd)) eqn:C; [reflexivity|].
  assert (In "consent" (missingFields fd)) as Hin.
  { unfold missingFields. apply filter_In. split.
    - unfold requiredFields. cbn. tauto.
    - unfold field_truthy. cbn. now rewrite C. }
  rewrite E in Hin. destruct Hin.
Qed.

Lemma required_check_pass req st :
  missingFields (formData req) = [] ->
  present (verificationToken req) = true ->
  required_check req st = (st, Value tt).
Proof.
  intros Ef Et. unfold required_check, bind.
  rewrite Ef, Et, (consent_of_fields _ Ef). reflexivity.
Qed.

Lemma fetch_subscriber_ok tok st :
  select_error w tok = None ->
  fetch_subscriber w tok st
  = (logged st [SubscribersSelect tok], Value (Table.select tok (subscribers st))).
Proof. intros E. unfold fetch_subscriber, bind, record, table, ret. now rewrite E. Qed.

Lemma pipeline_reaches_check req req' st :
  reaches_check w req req' ->
  pipeline w req' st = from_check w req' (subscribers st) (logged st (lookup_calls req')).
Proof.
  intros [_ Hh (data & success & Es & Ep & Et) Hf Ht Hr].
  unfold pipeline.
  rewrite (bind_value _ _ _ _ tt
             (eq_trans (bot_gate_verdict w req' st data success Hh Es Ep)
                       ltac:(now rewrite Et))).
  rewrite (bind_value _ _ _ _ _ (required_check_pass req' _ Hf Ht)).
  rewrite (bind_value _ _ _ _ _ (fetch_subscriber_ok _ _ Hr)).
  rewrite logged_logged. reflexivity.
Qed.

Lemma throttle_recent lm st stamp last :
  lm !! "IT Assessment" = Some stamp ->
  is_empty stamp = false ->
  Date_parse stamp = Some last ->
  clock w (calls st) - last <= 48 * 3600000 ->
  throttle w lm st
  = (st, Returns {| status := 200;
                    body := BodyMessage "Assessment already generated within 48 hours" |}).
Proof.
  intros El Ee Ed Hle. unfold throttle. rewrite El, Ee. cbn.
  unfold bind, new_Date, bind, history, ret. rewrite Ed, hoursDifference_le.
  apply Z.leb_le in Hle. now rewrite Hle.
Qed.

Lemma throttle_stale lm st :
  stale lm (clock w (calls st)) -> throttle w lm st = (st, Value tt).
Proof.
  unfold stale, throttle. destruct (lm !! "IT Assessment") as [stamp|]; [|reflexivity].
  destruct (is_empty stamp); [reflexivity|]. cbn.
  unfold bind, new_Date, bind, history, ret.
  destruct (Date_parse stamp) as [last|]; [|reflexivity].
  intros [E|Hlt]; [discriminate|].
  rewrite hoursDifference_le. apply Z.leb_gt in Hlt. now rewrite Hlt.
Qed.

End Idempotence.

(** ** Assessment generator *)

Section Generator.
Context `{Runtime}.
Variable w : World.

Lemma extract_json_state rawContent st :
  extract_json rawContent st = (st, extraction rawContent).
Proof.
  unfold extraction, extract_json, try_catch, parse.
  destruct (JSON_parse (strip_fence rawContent)); [reflexivity|]. cbn.
  destruct (match_braces rawContent) as [m|]; [|reflexivity].
  now destruct (JSON_parse m).
Qed.

Lemma extraction_value rawContent :
  extraction rawContent
  = match JSON_parse (strip_fence rawContent) with
    | Some v => Value v
    | None =>
        match match_braces rawContent with
        | Some m =>
            match JSON_parse m with
            | Some v => Value v
            | None => Throws "SyntaxError"
            end
        | None => Throws "Unable to extract valid JSON from Grok response"
        end
    end.
Proof.
  unfold extraction, extract_json, try_catch, parse.
  destruct (JSON_parse (strip_fence rawContent)); [reflexivity|]. cbn.
  destruct (match_braces rawContent) as [m|]; [|reflexivity].
  now destruct (JSON_parse m).
Qed.

(** The generator makes the one call and returns or throws. *)
Lemma generateAssessment_call fd st :
  exists o,
    generateAssessment w fd st = (logged st [ChatCompletion (prompt_of fd)], o)
    /\ ((exists v, o = Value v) \/ o = Throws generation_failure).
Proof.
  unfold generateAssessment, try_catch, bind, await, bind, record, prop, index.
  destruct (chat_completion w (prompt_of fd)) as [data|]; cbn; [|eauto].
  destruct (get_prop data "choices") as [choices|]; cbn; [|eauto].
  destruct (get_index choices 0) as [choice|]; cbn; [|eauto].
  destruct (get_prop choice "message") as [message|]; cbn; [|eauto].
  destruct (get_prop message "content") as [content|]; cbn; [|eauto].
  destruct content as [| | | |raw| |]; cbn; eauto.
  rewrite extract_json_state, extraction_value.
  destruct (JSON_parse (strip_fence raw)); cbn; eauto.
  destruct (match_braces raw) as [m|]; cbn; eauto.
  destruct (JSON_parse m); cbn; eauto.
Qed.

Lemma generateAssessment_content fd st data rawContent :
  chat_completion w (prompt_of fd) = Some data ->
  content_of data = Some (JStr rawContent) ->
  generateAssessment w fd st
  = (logged st [ChatCompletion (prompt_of fd)],
     match extraction rawContent with
     | Value v => Value v
     | _ => Throws generation_failure
     end).
Proof.
  intros Ec Econtent. unfold content_of in Econtent.
  unfold generateAssessment, try_catch, bind, await, bind, record, prop, index.
  rewrite Ec. cbn.
  destruct (get_prop data "choices") as [choices|]; [|discriminate]. cbn in *.
  destruct (get_index choices 0) as [choice|]; [|discriminate]. cbn in *.
  destruct (get_prop choice "message") as [message|]; [|discriminate]. cbn in *.
  rewrite Econtent. cbn. rewrite extract_json_state, extraction_value.
  destruct (JSON_parse (strip_fence rawContent)); [reflexivity|].
  destruct (match_braces rawContent) as [m|]; [|reflexivity].
  now destruct (JSON_parse m).
Qed.

End Generator.

(** ** State updater, renderer, notifier *)

Section Delivery.
Context `{Runtime}.
Variable w : World.

Lemma update_subscriber_run fd tok lm st :
  update_subscriber w fd tok lm st
  = let r := stamped_row fd tok lm (clock w (calls st)) in
    match upsert_error w r with
    | Some _ =>
        (logged st [SubscribersUpsert r], Throws "Error updating lead magnet timestamp")
    | None =>
        ({| calls := (calls st ++ [SubscribersUpsert r])%list;
            subscribers := Table.upsert r (subscribers st) |}, Value tt)
    end.
Proof.
  unfold update_subscriber, bind, new_Date, bind, history, ret, record, stamped_row.
  cbn. now destruct (upsert_error w _).
Qed.

Lemma render_run fd assessment st :
  exists l o,
    render w fd assessment st = (logged st l, o)
    /\ render_calls l
    /\ ((exists url p id,
            o = Value url
            /\ l = [RenderCreate p; Sleep 20000; RenderFetch id]
            /\ render_create w p <> None /\ render_fetch w id <> None)
        \/ exists e, o = Throws e).
Proof.
  unfold render, section, prop, index, await, new_Date, bind, history, record,
    ret, throw.
  cbn.
  repeat
    match goal with
    | |- context [match ?x with _ => _ end] =>
        lazymatch x with
        | get_prop _ _ => destruct x eqn:?
        | get_index _ _ => destruct x eqn:?
        | render_create _ _ => destruct x eqn:?
        | render_fetch _ _ => destruct x eqn:?
        end; cbn
    end.
  all: try (exists []; eexists; rewrite logged_nil; split; [reflexivity|];
            split; [constructor | right; eauto]).
  all: repeat rewrite <- app_assoc; cbn [app].
  all: eexists; eexists; (split; [unfold logged; reflexivity|]).
  all: split; [constructor|].
  all: try (right; eauto; fail).
  left. do 3 eexists. repeat split; congruence.
Qed.

Lemma get_index_defined v i :
  nullish v = false -> exists x, get_index v i = Some x.
Proof. unfold get_index. destruct v; cbn; intros E; try discriminate; eauto. Qed.

(** The renderer when the sections can be read and the service answers. *)
Lemma render_ok fd assessment st secs pdata doc id fdata fdoc url :
  get_prop assessment "assessmentSections" = Some secs ->
  nullish secs = false ->
  (forall p, render_create w p = Some pdata) ->
  get_prop pdata "document" = Some doc ->
  get_prop doc "id" = Some id ->
  render_fetch w id = Some fdata ->
  get_prop fdata "document" = Some fdoc ->
  get_prop fdoc "download_url" = Some url ->
  exists p,
    render w fd assessment st
    = (logged st [RenderCreate p; Sleep 20000; RenderFetch id], Value url).
Proof.
  intros Es Hn Hc Ed Ei Hf Efd Eu.
  destruct (get_index_defined secs 0 Hn) as (s0 & E0).
  destruct (get_index_defined secs 1 Hn) as (s1 & E1).
  destruct (get_index_defined secs 2 Hn) as (s2 & E2).
  destruct (get_index_defined secs 3 Hn) as (s3 & E3).
  unfold render, section, prop, index, await, new_Date, bind, history, record,
    ret, throw.
  cbn. rewrite Es, E0, E1, E2, E3, Hc, Ed, Ei. cbn. rewrite Hf, Efd, Eu.
  repeat rewrite <- app_assoc. cbn [app]. eexists. reflexivity.
Qed.

Lemma notify_run fd pdfUrl st :
  notify w fd pdfUrl st
  = (logged st [SendMail (mail_of fd pdfUrl)],
     if sendMail w (mail_of fd pdfUrl) then Value tt
     else Throws "Mail transport failed").
Proof.
  unfold notify, bind, record, mail_of. cbn.
  now destruct (sendMail w _).
Qed.

Lemma render_calls_delivery l : render_calls l -> forallb delivery_call l = true.
Proof. now destruct 1. Qed.

Lemma deliver_refused fd tok lm assessment st e :
  upsert_error w (stamped_row fd tok lm (clock w (calls st))) = Some e ->
  deliver w fd tok lm assessment st
  = (logged st [SubscribersUpsert (stamped_row fd tok lm (clock w (calls st)))],
     Throws "Error updating lead magnet timestamp").
Proof.
  intros E. unfold deliver.
  erewrite bind_throws; [reflexivity|].
  rewrite update_subscriber_run. cbn. now rewrite E.
Qed.

(** Once the upsert is accepted, the row stays written whatever follows,
    and what follows is a success or a thrown error. *)
Lemma deliver_run fd tok lm assessment st :
  let r := stamped_row fd tok lm (clock w (calls st)) in
  upsert_error w r = None ->
  exists rest o,
    deliver w fd tok lm assessment st
    = ({| calls := (calls st ++ SubscribersUpsert r :: rest)%list;
          subscribers := Table.upsert r (subscribers st) |}, o)
    /\ forallb delivery_call rest = true
    /\ ((exists url p id,
            o = Returns (success url)
            /\ rest = [RenderCreate p; Sleep 20000; RenderFetch id;
                       SendMail (mail_of fd url)]
            /\ render_create w p <> None /\ render_fetch w id <> None
            /\ sendMail w (mail_of fd url) = true)
        \/ exists e, o = Throws e).
Proof.
  intros r E. unfold deliver.
  set (st1 := {| calls := (calls st ++ [SubscribersUpsert r])%list;
                 subscribers := Table.upsert r (subscribers st) |}).
  assert (update_subscriber w fd tok lm st = (st1, Value tt)) as U.
  { rewrite update_subscriber_run. cbn. fold r. now rewrite E. }
  rewrite (bind_value _ _ _ _ _ U).
  destruct (render_run fd assessment st1) as (l & o & R & Hl & Ho).
  apply render_calls_delivery in Hl.
  destruct Ho as [(url & p & id & -> & El & Hc & Hf)|(e & ->)].
  - rewrite (bind_value _ _ _ _ _ R).
    pose proof (notify_run fd url (logged st1 l)) as N.
    destruct (sendMail w (mail_of fd url)) eqn:Em.
    + rewrite (bind_value _ _ _ _ _ N).
      exists (l ++ [SendMail (mail_of fd url)])%list, (Returns (success url)).
      split; [|split].
      * unfold respond, success, logged, st1. cbn.
        now rewrite <- !app_assoc.
      * rewrite forallb_app, Hl. reflexivity.
      * left. exists url, p, id. subst l. repeat split; auto.
    + rewrite (bind_throws _ _ _ _ _ N).
      exists (l ++ [SendMail (mail_of fd url)])%list, (Throws "Mail transport failed").
      split; [|split; [|right; eauto]].
      * unfold logged, st1. cbn. now rewrite <- !app_assoc.
      * rewrite forallb_app, Hl. reflexivity.
  - rewrite (bind_throws _ _ _ _ _ R).
    exists l, (Throws e). split; [|split; [exact Hl|right; eauto]].
    unfold logged, st1. cbn. now rewrite <- !app_assoc.
Qed.

End Delivery.

(** ** The orchestration *)

Section Orchestration.
Context `{Runtime}.
Variable w : World.

Lemma serve_reaches_check req req' db st o :
  reaches_check w req req' ->
  from_check w req' db {| calls := lookup_calls req'; subscribers := db |} = (st, o) ->
  serve w req db = (answer o, calls st, subscribers st).
Proof.
  intros R E. unfold serve. rewrite (handler_valid w _ _ _ (rc_valid _ _ _ R)).
  unfold try_catch. rewrite (pipeline_reaches_check w _ _ _ R).
  change (logged {| calls := []; subscribers := db |} (lookup_calls req'))
    with {| calls := lookup_calls req'; subscribers := db |}.
  change (subscribers {| calls := []; subscribers := db |}) with db.
  rewrite E. now destruct o.
Qed.

Lemma from_check_stale req' db st :
  stale (fetched req' db) (clock w (calls st)) ->
  from_check w req' db st
  = bind (generateAssessment w (formData req')) (fun assessment =>
      deliver w (formData req') (text (verificationToken req')) (fetched req' db)
        assessment) st.
Proof.
  intros S. unfold from_check.
  now rewrite (bind_value _ _ _ _ _ (throttle_stale w _ _ S)).
Qed.

(** Whatever the services answer, the run from the generation on ends with
    a response or a thrown error and only adds calls. *)
Lemma deliver_extends fd tok lm assessment st :
  exists rest o st',
    deliver w fd tok lm assessment st = (st', o)
    /\ calls st' = (calls st ++ rest)%list
    /\ (forall v, o <> Value v).
Proof.
  destruct (upsert_error w (stamped_row fd tok lm (clock w (calls st)))) eqn:E.
  - rewrite (deliver_refused w _ _ _ _ _ _ E). do 3 eexists.
    split; [reflexivity|]. split; [reflexivity|]. congruence.
  - destruct (deliver_run w fd tok lm assessment st E) as (rest & o & D & _ & Ho).
    rewrite D. do 3 eexists. split; [reflexivity|]. split; [reflexivity|].
    destruct Ho as [(? & ? & ? & -> & _)|(? & ->)]; congruence.
Qed.

(** The route answers every request. *)
Lemma pipeline_ends req st st' v : pipeline w req st <> (st', Value v).
Proof.
  unfold pipeline, bind.
  destruct (bot_gate w req st) as [st1 [[]| |]]; try congruence.
  destruct (required_check req st1) as [st2 [[]| |]]; try congruence.
  destruct (fetch_subscriber w _ st2) as [st3 [rows| |]]; try congruence.
  destruct (throttle w _ st3) as [st4 [[]| |]]; try congruence.
  destruct (generateAssessment w _ st4) as [st5 [a| |]]; try congruence.
  destruct (deliver_extends (formData req) (text (verificationToken req))
              (leadMagnetData_of rows) a st5) as (rest & o & st6 & D & _ & Hv).
  rewrite D. intros E. inversion E. subst. now apply (Hv v).
Qed.

Lemma serve_answers req db :
  exists resp log db', serve w req db = (Some resp, log, db').
Proof.
  unfold serve, handler.
  destruct (Validator.validate req) as [errors req'].
  destruct (is_empty_list errors); cbn; [|eauto].
  unfold try_catch.
  destruct (pipeline w req' {| calls := []; subscribers := db |}) as [st [v| |r]] eqn:E;
    cbn; eauto.
  now apply pipeline_ends in E.
Qed.

(** C1. For a request that reaches the 48-hour check: when the record found
    for the verification token holds an [IT Assessment] stamp that is at
    most 48 hours old, that is, whose wall-clock difference [now - last]
    (l.223) is at most 48 hours, the answer is status 200 with the
    already-generated message, and the calls stop at the read of the table
    (no completion call, no render job, no mail); when the stamp is absent
    or the difference exceeds 48 hours (or the stamp is empty or not a
    date), the run proceeds to the call of the completion API. *)
Theorem recent_assessment_short_circuits req req' db :
  reaches_check w req req' ->
  (forall stamp last,
      fetched req' db !! "IT Assessment" = Some stamp ->
      is_empty stamp = false ->
      Date_parse stamp = Some last ->
      clock w (lookup_calls req') - last <= 48 * 3600000 ->
      serve w req db = (Some already_generated, lookup_calls req', db))
  /\ (stale (fetched req' db) (clock w (lookup_calls req')) ->
      exists resp rest db',
        serve w req db = (Some resp, (generation_calls req' ++ rest)%list, db')).
Proof.
  intros R. split.
  - intros stamp last El Ee Ed Hle.
    rewrite (serve_reaches_check req req' db
               {| calls := lookup_calls req'; subscribers := db |}
               (Returns already_generated) R); [reflexivity|].
    unfold from_check. apply bind_returns.
    now apply (throttle_recent w _ _ stamp last).
  - intros S.
    set (st0 := {| calls := lookup_calls req'; subscribers := db |}).
    destruct (generateAssessment_call w (formData req') st0) as (o & G & Ho).
    destruct Ho as [(v & ->)| ->].
    + destruct (deliver_extends (formData req') (text (verificationToken req'))
                  (fetched req' db) v
                  (logged st0 [ChatCompletion (prompt_of (formData req'))]))
        as (rest & o & st' & D & Ec & Hv).
      assert (from_check w req' db st0 = (st', o)) as F.
      { rewrite from_check_stale by exact S. now rewrite (bind_value _ _ _ _ _ G). }
      rewrite (serve_reaches_check _ _ _ _ _ R F), Ec.
      destruct o as [v'| |r]; [now destruct (Hv v')| |]; cbn; eauto.
    + assert (from_check w req' db st0
              = (logged st0 [ChatCompletion (prompt_of (formData req'))],
                 Throws generation_failure)) as F.
      { rewrite from_check_stale by exact S. now rewrite (bind_throws _ _ _ _ _ G). }
      rewrite (serve_reaches_check _ _ _ _ _ R F).
      exists failure, [], db. unfold generation_calls. now rewrite app_nil_r.
Qed.

(** C7. For a request that reaches the generation, when the content
    returned by the completion API is not JSON after the markers are
    stripped and holds no text between braces, the answer is status 500
    with the generic message; the calls stop at the completion call: no
    render job, no mail (and no write to the table). *)
Theorem unparsable_completion_fails req req' db data rawContent :
  reaches_check w req req' ->
  stale (fetched req' db) (clock w (lookup_calls req')) ->
  chat_completion w (prompt_of (formData req')) = Some data ->
  content_of data = Some (JStr rawContent) ->
  JSON_parse (strip_fence rawContent) = None ->
  match_braces rawContent = None ->
  serve w req db = (Some failure, generation_calls req', db).
Proof.
  intros R S Ec Econtent Ep Em.
  set (st0 := {| calls := lookup_calls req'; subscribers := db |}).
  pose proof (generateAssessment_content w (formData req') st0 data rawContent
                Ec Econtent) as G.
  rewrite extraction_value, Ep, Em in G.
  assert (from_check w req' db st0
          = (logged st0 [ChatCompletion (prompt_of (formData req'))],
             Throws generation_failure)) as F.
  { rewrite from_check_stale by exact S. now rewrite (bind_throws _ _ _ _ _ G). }
  now rewrite (serve_reaches_check _ _ _ _ _ R F).
Qed.

Lemma from_check_generates req' db assessment :
  stale (fetched req' db) (clock w (lookup_calls req')) ->
  generates w (formData req') assessment ->
  from_check w req' db {| calls := lookup_calls req'; subscribers := db |}
  = deliver w (formData req') (text (verificationToken req')) (fetched req' db)
      assessment {| calls := generation_calls req'; subscribers := db |}.
Proof.
  intros S (data & raw & Ec & Econtent & Ex).
  rewrite from_check_stale by exact S.
  pose proof (generateAssessment_content w (formData req')
                {| calls := lookup_calls req'; subscribers := db |} data raw
                Ec Econtent) as G.
  rewrite Ex in G. now rewrite (bind_value _ _ _ _ _ G).
Qed.

(** The run of a request that reaches the state updater. *)
Lemma updater_run req req' db assessment :
  reaches_check w req req' ->
  stale (fetched req' db) (clock w (lookup_calls req')) ->
  generates w (formData req') assessment ->
  exists resp rest db',
    serve w req db
    = (Some resp,
       (generation_calls req' ++ SubscribersUpsert (written_row w req' db) :: rest)%list,
       db')
    /\ forallb delivery_call rest = true
    /\ (upsert_error w (written_row w req' db) = None ->
        db' = Table.upsert (written_row w req' db) db
        /\ (resp = failure
            \/ exists url p id,
                 resp = success url
                 /\ rest = [RenderCreate p; Sleep 20000; RenderFetch id;
                            SendMail (mail_of (formData req') url)]
                 /\ render_create w p <> None /\ render_fetch w id <> None
                 /\ sendMail w (mail_of (formData req') url) = true))
    /\ (upsert_error w (written_row w req' db) <> None ->
        resp = failure /\ rest = [] /\ db' = db).
Proof.
  intros R S G.
  pose proof (from_check_generates req' db assessment S G) as F.
  set (st0 := {| calls := generation_calls req'; subscribers := db |}) in F.
  destruct (upsert_error w (written_row w req' db)) as [e|] eqn:E.
  - rewrite (deliver_refused w _ _ _ _ st0 e E) in F.
    rewrite (serve_reaches_check _ _ _ _ _ R F).
    exists failure, [], db. repeat split; try congruence.
  - destruct (deliver_run w (formData req') (text (verificationToken req'))
                (fetched req' db) assessment st0 E) as (rest & o & D & Hd & Ho).
    rewrite D in F. rewrite (serve_reaches_check _ _ _ _ _ R F).
    destruct Ho as [(url & p & id & -> & Er & Hc & Hf & Hm)|(e & ->)].
    + exists (success url), rest, (Table.upsert (written_row w req' db) db).
      repeat split; try congruence; auto. right. eauto 10.
    + exists failure, rest, (Table.upsert (written_row w req' db) db).
      repeat split; try congruence; auto.
Qed.

(** The run in which every service answers. *)
Lemma delivery_run req req' db assessment id url :
  reaches_check w req req' ->
  stale (fetched req' db) (clock w (lookup_calls req')) ->
  generates w (formData req') assessment ->
  has_sections assessment ->
  (forall r, upsert_error w r = None) ->
  renders w id url ->
  (forall m, sendMail w m = true) ->
  exists p,
    serve w req db
    = (Some (success url),
       (generation_calls req'
        ++ [SubscribersUpsert (written_row w req' db); RenderCreate p; Sleep 20000;
            RenderFetch id; SendMail (mail_of (formData req') url)])%list,
       Table.upsert (written_row w req' db) db).
Proof.
  intros R S G (secs & Es & Hn) Hu
    (pdata & doc & fdata & fdoc & Hc & Ed & Ei & Hf & Efd & Eu) Hm.
  pose proof (from_check_generates req' db assessment S G) as F.
  set (st0 := {| calls := generation_calls req'; subscribers := db |}) in F.
  set (st1 := {| calls := (calls st0 ++ [SubscribersUpsert (written_row w req' db)])%list;
                 subscribers := Table.upsert (written_row w req' db) db |}).
  assert (update_subscriber w (formData req') (text (verificationToken req'))
            (fetched req' db) st0 = (st1, Value tt)) as U.
  { rewrite update_subscriber_run. cbn.
    now rewrite (Hu (stamped_row _ _ _ _)). }
  destruct (render_ok w (formData req') assessment st1 secs pdata doc id fdata fdoc url
              Es Hn Hc Ed Ei Hf Efd Eu) as (p & Rn).
  pose proof (notify_run w (formData req') url
                (logged st1 [RenderCreate p; Sleep 20000; RenderFetch id])) as N.
  rewrite Hm in N.
  unfold deliver in F.
  rewrite (bind_value _ _ _ _ _ U), (bind_value _ _ _ _ _ Rn),
    (bind_value _ _ _ _ _ N) in F.
  exists p. rewrite (serve_reaches_check _ _ _ _ _ R F).
  unfold logged, st1, st0. cbn [calls subscribers respond].
  now rewrite <- !app_assoc.
Qed.

Lemma count_app p l l' : count p (l ++ l')%list = (count p l + count p l')%nat.
Proof. unfold count. now rewrite List.filter_app, List.length_app. Qed.

Lemma count_cons p c l :
  count p (c :: l) = ((if p c then 1 else 0) + count p l)%nat.
Proof. unfold count. cbn. now destruct (p c). Qed.

Lemma count_upsert_delivery rest :
  forallb delivery_call rest = true -> count is_upsert rest = 0%nat.
Proof.
  induction rest as [|c rest IH]; [reflexivity|]. intros Hd. cbn in Hd.
  apply andb_true_iff in Hd as [Hc Hd]. rewrite count_cons, (IH Hd).
  now destruct c.
Qed.

Lemma written_row_stamp req' db :
  exists m,
    Subscriber.lead_magnet_generated (written_row w req' db) = Some m
    /\ m !! "IT Assessment" = Some (toISOString (clock w (generation_calls req'))).
Proof.
  eexists. split; [reflexivity|]. apply lookup_insert_eq.
Qed.


(** C9. Once the render job is submitted, the handler sleeps once, for
    20000 ms, reads the job once, and takes [download_url] from the answer
    whatever else the answer says (the status of the job is not read);
    whatever that value is, undefined or the empty string included, the
    mail is sent with it and the answer is status 200 with that value as
    [downloadUrl]. *)
Theorem render_read_once_unchecked req req' db assessment id url :
  reaches_check w req req' ->
  stale (fetched req' db) (clock w (lookup_calls req')) ->
  generates w (formData req') assessment ->
  has_sections assessment ->
  (forall r, upsert_error w r = None) ->
  renders w id url ->
  (forall m, sendMail w m = true) ->
  exists before p m db',
    serve w req db
    = (Some {| status := 200;
               body := BodyGenerated "Assessment generated and emailed successfully"
                         url |},
       (before ++ [RenderCreate p; Sleep 20000; RenderFetch id; SendMail m])%list,
       db')
    /\ Mail.pdfUrl m = url
    /\ existsb delivery_call before = false
    /\ count is_sleep
         (before ++ [RenderCreate p; Sleep 20000; RenderFetch id; SendMail m])%list
       = 1%nat
    /\ count is_render_fetch
         (before ++ [RenderCreate p; Sleep 20000; RenderFetch id; SendMail m])%list
       = 1%nat.
Proof.
  intros R S G Hs Hu Hr Hm.
  destruct (delivery_run req req' db assessment id url R S G Hs Hu Hr Hm) as (p & E).
  exists (generation_calls req' ++ [SubscribersUpsert (written_row w req' db)])%list,
    p, (mail_of (formData req') url), (Table.upsert (written_row w req' db) db).
  split; [|repeat split; reflexivity].
  rewrite E. now rewrite <- app_assoc.
Qed.

Lemma find_upsert r db :
  Table.find_email (Subscriber.email r) (Table.upsert r db) = Some r.
Proof.
  unfold Table.find_email, Table.upsert.
  induction db as [|x db IH]; cbn.
  - now rewrite String.eqb_refl.
  - destruct (String.eqb (Subscriber.email x) (Subscriber.email r)) eqn:E; cbn.
    + now rewrite String.eqb_refl.
    + now rewrite E.
Qed.

(** C8. For a request that reaches the state updater, the upsert of the
    row stamped with the current time comes before every call of the
    renderer and of the notifier; once the table has taken the row, a
    failure of the render or of the mail is answered with status 500 and
    the row, with its new stamp, is still in the table: the write is not
    undone. *)
Theorem timestamp_written_before_delivery req req' db assessment :
  reaches_check w req req' ->
  stale (fetched req' db) (clock w (lookup_calls req')) ->
  generates w (formData req') assessment ->
  exists resp before rest db' stamps,
    serve w req db
    = (Some resp, (before ++ SubscribersUpsert (written_row w req' db) :: rest)%list, db')
    /\ existsb delivery_call before = false
    /\ forallb delivery_call rest = true
    /\ Subscriber.lead_magnet_generated (written_row w req' db) = Some stamps
    /\ stamps !! "IT Assessment"
       = Some (toISOString (clock w (generation_calls req')))
    /\ (upsert_error w (written_row w req' db) = None ->
        Table.find_email (Subscriber.email (written_row w req' db)) db'
        = Some (written_row w req' db)
        /\ (resp = {| status := 500;
                      body := BodyError "Failed to generate or email assessment" |}
            \/ exists url p id,
                 resp = success url
                 /\ rest = [RenderCreate p; Sleep 20000; RenderFetch id;
                            SendMail (mail_of (formData req') url)]
                 /\ render_create w p <> None /\ render_fetch w id <> None
                 /\ sendMail w (mail_of (formData req') url) = true)).
Proof.
  intros R S G.
  destruct (updater_run req req' db assessment R S G)
    as (resp & rest & db' & E & Hd & Hok & _).
  destruct (written_row_stamp req' db) as (m & Em & El).
  exists resp, (generation_calls req'), rest, db', m.
  split; [exact E|]. split; [reflexivity|]. split; [exact Hd|].
  split; [exact Em|]. split; [exact El|].
  intros Hu. destruct (Hok Hu) as (-> & Hr).
  split; [apply find_upsert|exact Hr].
Qed.

(** The first row read for a token is a row of the table with that token. *)
Lemma select_head_in_table tok db row others :
  Table.select tok db = row :: others ->
  In row db /\ Subscriber.verification_token row = tok.
Proof.
  unfold Table.select. intros E.
  assert (row ∈ filter (fun r => Subscriber.verification_token r = tok) db) as Hin
    by (rewrite E; left).
  apply list_elem_of_filter in Hin. destruct Hin as [Ht Hin].
  split; [now apply list_elem_of_In|exact Ht].
Qed.

(** The map the handler starts from (l.218) is the map of the first row
    read, or the empty one when that row has none or no row was read. *)
Lemma fetched_of_row req' db row others :
  Table.select (text (verificationToken req')) db = row :: others ->
  fetched req' db = default ∅ (Subscriber.lead_magnet_generated row).
Proof. intros E. unfold fetched. rewrite E. reflexivity. Qed.

Lemma fetched_no_row req' db :
  Table.select (text (verificationToken req')) db = [] ->
  fetched req' db = ∅.
Proof. intros E. unfold fetched. rewrite E. reflexivity. Qed.

(** C10. For a request that reaches the state updater, the run makes one
    upsert, of a row with the email of the form and the verification token
    of the request, whose map has the key [IT Assessment] set.  That map is
    the one of the row of the table read for the token (the first row of
    the table with that token), with only that key replaced: every other
    key has in the written row the stamp it has in [lead_magnet_generated]
    of that row of the table, and no stamp when that row has none; when
    the table has no row for the token, or the row has no map, the written
    map holds the key [IT Assessment] alone.  When the store accepts the
    write, the row written is the row the table then holds for the email. *)
Theorem upsert_preserves_other_magnets req req' db assessment :
  reaches_check w req req' ->
  stale (fetched req' db) (clock w (lookup_calls req')) ->
  generates w (formData req') assessment ->
  exists resp before rest db' r stamps,
    serve w req db = (Some resp, (before ++ SubscribersUpsert r :: rest)%list, db')
    /\ count is_upsert (before ++ SubscribersUpsert r :: rest)%list = 1%nat
    /\ Subscriber.lead_magnet_generated r = Some stamps
    /\ is_Some (stamps !! "IT Assessment")
    /\ (forall k, k <> "IT Assessment" -> stamps !! k = fetched req' db !! k)
    /\ Subscriber.email r = text (email (formData req'))
    /\ Subscriber.verification_token r = text (verificationToken req')
    /\ (forall row others,
          Table.select (text (verificationToken req')) db = row :: others ->
          In row db
          /\ Subscriber.verification_token row = text (verificationToken req')
          /\ (forall m,
                Subscriber.lead_magnet_generated row = Some m ->
                (forall k, k <> "IT Assessment" -> stamps !! k = m !! k)
                /\ (forall k v, k <> "IT Assessment" ->
                                m !! k = Some v -> stamps !! k = Some v))
          /\ (Subscriber.lead_magnet_generated row = None ->
              forall k, k <> "IT Assessment" -> stamps !! k = None))
    /\ (Table.select (text (verificationToken req')) db = [] ->
        forall k, k <> "IT Assessment" -> stamps !! k = None)
    /\ (upsert_error w r = None ->
        Table.find_email (Subscriber.email r) db' = Some r).
Proof.
  intros R S G.
  destruct (updater_run req req' db assessment R S G)
    as (resp & rest & db' & E & Hd & Hok & _).
  exists resp, (generation_calls req'), rest, db', (written_row w req' db).
  eexists. split; [exact E|]. split; [|split; [reflexivity|]].
  { rewrite count_app, count_cons, (count_upsert_delivery rest Hd). reflexivity. }
  split; [rewrite lookup_insert_eq; eauto|].
  split; [intros k Hk; now rewrite lookup_insert_ne|].
  split; [reflexivity|]. split; [reflexivity|].
  split; [|split].
  - intros row others Hsel.
    destruct (select_head_in_table _ _ _ _ Hsel) as [Hin Htok].
    split; [exact Hin|]. split; [exact Htok|].
    pose proof (fetched_of_row req' db row others Hsel) as Hf.
    split.
    + intros m Hm. rewrite Hm in Hf. cbn in Hf.
      assert (forall k, k <> "IT Assessment" ->
                        <["IT Assessment" := toISOString (clock w (generation_calls req'))]>
                          (fetched req' db) !! k = m !! k) as Hk
        by (intros k Hk; rewrite lookup_insert_ne by congruence; now rewrite Hf).
      split; [exact Hk|].
      intros k v Hne Hv. rewrite (Hk k Hne). exact Hv.
    + intros Hm k Hk. rewrite Hm in Hf. cbn in Hf.
      rewrite lookup_insert_ne by congruence. rewrite Hf. apply lookup_empty.
  - intros Hsel k Hk.
    rewrite lookup_insert_ne by congruence.
    rewrite (fetched_no_row req' db Hsel). apply lookup_empty.
  - intros Hu. destruct (Hok Hu) as (-> & _). apply find_upsert.
Qed.

End Orchestration.

(** ** Code-block markers *)

Section Fences.

Lemma length_append (s t : string) :
  String.length (s ++ t) = (String.length s + String.length t)%nat.
Proof. induction s as [|c s IH]; simpl; [reflexivity|now rewrite IH]. Qed.

Lemma substring_whole (s t : string) :
  String.substring 0 (String.length s) (s ++ t) = s.
Proof. induction s as [|c s IH]; simpl; [now destruct t|now rewrite IH]. Qed.

Lemma substring_skip (a b : string) n :
  String.substring (String.length a) n (a ++ b) = String.substring 0 n b.
Proof. induction a as [|c a IH]; simpl; [reflexivity|exact IH]. Qed.

(** [slice] removes a marker at each end. *)
Lemma slice_between (a s b : string) :
  slice (a ++ s ++ b) (String.length a) (String.length b) = s.
Proof.
  unfold slice. rewrite !length_append.
  replace (String.length a + (String.length s + String.length b)
           - String.length b - String.length a)%nat
    with (String.length s) by lia.
  rewrite substring_skip. apply substring_whole.
Qed.

Lemma endsWith_refl p : endsWith p p = true.
Proof. destruct p; cbn; [reflexivity|]. now rewrite Ascii.eqb_refl, String.eqb_refl. Qed.

Lemma endsWith_unfold c s p :
  endsWith (String c s) p = (String.eqb (String c s) p || endsWith s p)%bool.
Proof. reflexivity. Qed.

Lemma endsWith_append a p : endsWith (a ++ p) p = true.
Proof.
  induction a as [|c a IH]; [apply endsWith_refl|].
  change (String c a ++ p) with (String c (a ++ p)).
  rewrite endsWith_unfold, IH. apply orb_true_r.
Qed.

Lemma trimEnd_unfold c s :
  trimEnd (String c s)
  = if (is_ws c && is_empty (trimEnd s))%bool then EmptyString
    else String c (trimEnd s).
Proof. reflexivity. Qed.

Lemma through_last_close_unfold c s :
  through_last_close (String c s)
  = match through_last_close s with
    | Some t => Some (String c t)
    | None => if Ascii.eqb c "}" then Some (String c EmptyString) else None
    end.
Proof. reflexivity. Qed.

Lemma trimEnd_append s t :
  trimEnd t = t -> is_empty t = false -> trimEnd (s ++ t) = s ++ t.
Proof.
  intros Et Hne. induction s as [|c s IH]; [exact Et|].
  change (String c s ++ t) with (String c (s ++ t)).
  rewrite trimEnd_unfold, IH.
  replace (is_empty (s ++ t)) with false; [now rewrite andb_false_r|].
  destruct s; [|reflexivity]. change ("" ++ t) with t. now rewrite Hne.
Qed.

(** A text that starts and ends with a backtick is its own [trim]. *)
Lemma trim_marked (s : string) :
  trim (String "`" (s ++ "```")) = String "`" (s ++ "```").
Proof.
  unfold trim.
  change (trimStart (String "`" (s ++ "```"))) with (String "`" s ++ "```").
  change (String "`" (s ++ "```")) with (String "`" s ++ "```").
  apply (trimEnd_append (String "`" s) "```"); reflexivity.
Qed.

Lemma through_last_close_append s t :
  through_last_close t = None ->
  through_last_close (s ++ t) = through_last_close s.
Proof.
  intros Et. induction s as [|c s IH]; [exact Et|].
  change (String c s ++ t) with (String c (s ++ t)).
  now rewrite !through_last_close_unfold, IH.
Qed.

Lemma match_braces_unfold c s :
  match_braces (String c s)
  = if Ascii.eqb c "{" then option_map (String c) (through_last_close s)
    else match_braces s.
Proof. reflexivity. Qed.

Lemma match_braces_append s t :
  through_last_close t = None -> match_braces t = None ->
  match_braces (s ++ t) = match_braces s.
Proof.
  intros Et Em. induction s as [|c s IH]; [exact Em|].
  change (String c s ++ t) with (String c (s ++ t)).
  rewrite !match_braces_unfold, IH.
  now rewrite through_last_close_append.
Qed.

(** The markers hold no brace: the regular expression finds in the wrapped
    text what it finds in the text. *)
Lemma match_braces_wrapped (marker s : string) :
  marker = "```json" \/ marker = "```" ->
  match_braces (marker ++ s ++ "```") = match_braces s.
Proof.
  intros [-> | ->].
  - change ("```json" ++ s ++ "```")
      with (String "`" (String "`" (String "`" (String "j" (String "s"
              (String "o" (String "n" (s ++ "```")))))))).
    rewrite !match_braces_unfold. now apply match_braces_append.
  - change ("```" ++ s ++ "```")
      with (String "`" (String "`" (String "`" (s ++ "```")))).
    rewrite !match_braces_unfold. now apply match_braces_append.
Qed.

Lemma prefix_append (a b s : string) :
  String.prefix (a ++ b) s = true -> String.prefix a s = true.
Proof.
  revert s. induction a as [|c a IH]; intros s; [now destruct s|].
  change (String c a ++ b) with (String c (a ++ b)).
  destruct s as [|d s]; [discriminate|]. simpl.
  destruct (ascii_dec c d); [apply IH|discriminate].
Qed.

Lemma strip_fence_plain s : fenced (trim s) = false -> strip_fence s = trim s.
Proof.
  unfold fenced, strip_fence, startsWith. intros E. rewrite E.
  destruct (String.prefix "```json" (trim s)) eqn:P; [|reflexivity].
  apply (prefix_append "```" "json") in P. rewrite P in E. cbn in E. now rewrite E.
Qed.

Lemma trim_wrapped (marker s : string) :
  marker = "```json" \/ marker = "```" ->
  trim (marker ++ s ++ "```") = marker ++ s ++ "```".
Proof.
  intros [-> | ->].
  - change ("```json" ++ s ++ "```") with (String "`" (("``json" ++ s) ++ "```")).
    apply trim_marked.
  - change ("```" ++ s ++ "```") with (String "`" (("``" ++ s) ++ "```")).
    apply trim_marked.
Qed.

Lemma endsWith_wrapped (marker s : string) :
  endsWith (marker ++ s ++ "```") "```" = true.
Proof.
  replace (marker ++ s ++ "```") with ((marker ++ s) ++ "```").
  - apply endsWith_append.
  - induction marker as [|c m IH]; [reflexivity|].
    change (String c ((m ++ s) ++ "```") = String c (m ++ s ++ "```")).
    now rewrite IH.
Qed.

Lemma startsWith_append p s : startsWith (p ++ s) p = true.
Proof. unfold startsWith. apply prefix_correct, substring_whole. Qed.

Lemma strip_fence_json s : strip_fence ("```json" ++ s ++ "```") = trim s.
Proof.
  unfold strip_fence. rewrite trim_wrapped by auto.
  rewrite endsWith_wrapped, startsWith_append.
  cbn [andb]. f_equal. apply (slice_between "```json" s "```").
Qed.

(** With the bare marker, a text that begins with [json] would be read as
    the longer marker. *)
Lemma append_cons c (s t : string) : String c s ++ t = String c (s ++ t).
Proof. reflexivity. Qed.

Lemma prefix_cons a p b s :
  String.prefix (String a p) (String b s)
  = if ascii_dec a b then String.prefix p s else false.
Proof. reflexivity. Qed.

Ltac peel_prefix :=
  match goal with
  | |- String.prefix _ ?s = false -> String.prefix _ (?s ++ _) = false =>
      destruct s as [|? ?];
      [ intros _; reflexivity
      | rewrite append_cons, !prefix_cons; destruct (ascii_dec _ _); [|reflexivity] ]
  end.

Lemma prefix_json_tail s :
  String.prefix "json" s = false -> String.prefix "json" (s ++ "```") = false.
Proof.
  do 4 peel_prefix. intros E. now destruct s.
Qed.

Lemma strip_fence_bare s :
  startsWith s "json" = false -> strip_fence ("```" ++ s ++ "```") = trim s.
Proof.
  intros E. unfold strip_fence. rewrite trim_wrapped by auto.
  rewrite endsWith_wrapped.
  assert (startsWith ("```" ++ s ++ "```") "```json" = false) as ->.
  { apply prefix_json_tail in E. exact E. }
  rewrite startsWith_append.
  cbn [andb]. f_equal. apply (slice_between "```" s "```").
Qed.

End Fences.

Section FenceTheorem.
Context `{Runtime}.

Lemma extraction_json_marker s :
  fenced (trim s) = false -> extraction ("```json" ++ s ++ "```") = extraction s.
Proof.
  intros F. rewrite !extraction_value.
  rewrite strip_fence_json, (strip_fence_plain s F), match_braces_wrapped by auto.
  reflexivity.
Qed.

Lemma extraction_bare_marker s :
  fenced (trim s) = false -> startsWith s "json" = false ->
  extraction ("```" ++ s ++ "```") = extraction s.
Proof.
  intros F J. rewrite !extraction_value.
  rewrite (strip_fence_bare s J), (strip_fence_plain s F), match_braces_wrapped
    by auto.
  reflexivity.
Qed.

(** C6, as the code has it. For a text [s] whose trimmed form is not
    itself enclosed in the markers, the content made of [s] between
    [```json] and [```] is extracted as [s] is: the same value or the same
    failure; so is the content made of [s] between two bare markers when
    [s] does not begin with [json]. *)
Theorem fence_transparent s :
  fenced (trim s) = false ->
  extraction ("```json" ++ s ++ "```") = extraction s
  /\ (startsWith s "json" = false ->
      extraction ("```" ++ s ++ "```") = extraction s).
Proof.
  intros F. split; [|intros J].
  - now apply extraction_json_marker.
  - now apply extraction_bare_marker.
Qed.

End FenceTheorem.

(** *** JSON text between the markers *)

Section JsonText.

(** No JSON text starts with a backtick or with the letter j. *)
Lemma parse_backtick r : Json.parse (String "`" r) = None.
Proof. unfold Json.parse. simpl. reflexivity. Qed.

Lemma parse_letter_j r : Json.parse (String "j" r) = None.
Proof. unfold Json.parse. simpl. reflexivity. Qed.

Lemma prefix_head a p s :
  String.prefix (String a p) s = true -> exists r, s = String a r.
Proof.
  destruct s as [|b s]; [discriminate|]. rewrite prefix_cons.
  destruct (ascii_dec a b); [subst; eauto|discriminate].
Qed.

(** A text that [JSON.parse] accepts once trimmed is not enclosed in the
    markers and does not begin with [json]. *)
Lemma json_text_plain s v :
  Json.parse (trim s) = Some v ->
  fenced (trim s) = false /\ startsWith s "json" = false.
Proof.
  intros P. split.
  - unfold fenced, startsWith.
    destruct (String.prefix "```" (trim s)) eqn:E; [|reflexivity].
    apply prefix_head in E as (r & E). rewrite E, parse_backtick in P. discriminate.
  - unfold startsWith. destruct (String.prefix "json" s) eqn:E; [|reflexivity].
    apply prefix_head in E as (r & ->).
    unfold trim in P.
    change (trimStart (String "j" r)) with (String "j" r) in P.
    rewrite trimEnd_unfold in P.
    change (is_ws "j") with false in P. cbn [andb] in P.
    rewrite parse_letter_j in P. discriminate.
Qed.

(** With the reference [JSON.parse]: JSON text is extracted to the same
    value with or without the markers. *)
Lemma json_text_fence_transparent s v :
  Json.parse (trim s) = Some v ->
  extraction (H := Reference.runtime) s = Value v
  /\ extraction (H := Reference.runtime) ("```json" ++ s ++ "```") = Value v
  /\ extraction (H := Reference.runtime) ("```" ++ s ++ "```") = Value v.
Proof.
  intros P. destruct (json_text_plain s v P) as [F J].
  rewrite (extraction_json_marker (H := Reference.runtime) s F),
    (extraction_bare_marker (H := Reference.runtime) s F J).
  rewrite extraction_value, (strip_fence_plain s F).
  cbn [JSON_parse Reference.runtime]. rewrite P. auto.
Qed.

End JsonText.

(** ** Instances *)

Module ExampleFacts.

Import Reference Example.

Lemma req_valid : Validator.validate req = ([], clean).
Proof. vm_compute. reflexivity. Defined.

Lemma req_honeypot_valid : Validator.validate req_honeypot = ([], clean_honeypot).
Proof. vm_compute. reflexivity. Defined.

(** The request reaches the 48-hour check in every world that keeps the
    verification service and the table of [world]. *)
Lemma reaches (w : World) :
  siteverify w = siteverify world ->
  select_error w = select_error world ->
  reaches_check w req clean.
Proof.
  intros Es Er. constructor.
  - exact req_valid.
  - reflexivity.
  - exists (JObj [("success", JBool true)]), (JBool true).
    rewrite Es. repeat split; vm_compute; reflexivity.
  - vm_compute. reflexivity.
  - reflexivity.
  - rewrite Er. reflexivity.
Defined.

Lemma stale_db_stale (w : World) :
  clock w = clock world ->
  stale (fetched clean db_stale) (clock w (lookup_calls clean)).
Proof. intros ->. vm_compute. right. reflexivity. Defined.

Lemma generates_assessment (w : World) :
  chat_completion w = chat_completion world ->
  generates w (formData clean) assessment.
Proof.
  intros E. eexists. exists completion_text. rewrite E.
  repeat split; vm_compute; reflexivity.
Defined.

Lemma assessment_has_sections : has_sections assessment.
Proof. eexists. split; vm_compute; reflexivity. Defined.

Lemma renders_world : renders world (JStr "doc-1") (JStr "https://files.example/doc-1.pdf").
Proof.
  do 4 eexists. repeat split; try (intros; reflexivity); vm_compute; reflexivity.
Defined.

Lemma renders_unrendered : renders world_unrendered (JStr "doc-1") JUndefined.
Proof.
  do 4 eexists. repeat split; try (intros; reflexivity); vm_compute; reflexivity.
Defined.

End ExampleFacts.

Section Instances.
Import Reference.

Lemma recent_assessment_short_circuits_witness :
  serve Example.world Example.req Example.db_recent
  = (Some already_generated, lookup_calls Example.clean, Example.db_recent)
  /\ exists resp rest db',
      serve Example.world Example.req Example.db_stale
      = (Some resp, (generation_calls Example.clean ++ rest)%list, db').
Proof.
  destruct (recent_assessment_short_circuits Example.world Example.req Example.clean
              Example.db_recent (ExampleFacts.reaches Example.world eq_refl eq_refl)) as [Hrecent _].
  destruct (recent_assessment_short_circuits Example.world Example.req Example.clean
              Example.db_stale (ExampleFacts.reaches Example.world eq_refl eq_refl)) as [_ Hstale].
  split.
  - apply (Hrecent "2026-11-01T00:00:00.000Z" 1793491200000);
      vm_compute; congruence.
  - apply Hstale. exact (ExampleFacts.stale_db_stale Example.world eq_refl).
Defined.

(** The age [now - last] of a stamp later than the clock is negative, so
    below 48 hours: the request is answered as already generated.  The
    handler itself only ever writes the clock of the run (l.234-235). *)
Lemma future_stamp_short_circuits :
  fetched Example.clean Example.db_future !! "IT Assessment"
  = Some "2026-11-10T00:00:00.000Z"
  /\ Date_parse "2026-11-10T00:00:00.000Z" = Some 1794268800000
  /\ clock Example.world (lookup_calls Example.clean) - 1794268800000 < 0
  /\ serve Example.world Example.req Example.db_future
     = (Some already_generated, lookup_calls Example.clean, Example.db_future).
Proof. repeat split; vm_compute; reflexivity. Qed.

Lemma invalid_submission_rejected_witness :
  exists errors,
    In (Validator.invalid "formData.consent") errors
    /\ serve Example.world Example.req_no_consent Example.db_stale
       = (Some {| status := 400; body := BodyErrors errors |}, [], Example.db_stale).
Proof.
  apply (invalid_submission_rejected Example.world Example.req_no_consent
           "formData.consent" Example.db_stale).
  - reflexivity.
  - apply consent_false. reflexivity.
Defined.

Lemma honeypot_rejected_witness :
  serve Example.world Example.req_honeypot Example.db_stale
  = (Some {| status := 403; body := BodyError "Bot detected." |}, [], Example.db_stale).
Proof.
  apply (honeypot_rejected Example.world Example.req_honeypot Example.clean_honeypot).
  - exact ExampleFacts.req_honeypot_valid.
  - reflexivity.
Defined.

Lemma captcha_failure_rejected_witness :
  serve Example.world_bot Example.req Example.db_stale
  = (Some {| status := 403; body := BodyError "Bot detected, please try again." |},
     [CaptchaVerify "captcha-ok"], Example.db_stale).
Proof.
  apply (captcha_failure_rejected Example.world_bot Example.req Example.clean
           Example.db_stale (JObj [("success", JBool false)]) (JBool false)).
  - exact ExampleFacts.req_valid.
  - reflexivity.
  - reflexivity.
  - vm_compute. reflexivity.
  - reflexivity.
Defined.


Lemma fence_transparent_witness :
  extraction ("```json" ++ "{}" ++ "```") = extraction "{}"
  /\ extraction ("```" ++ "{}" ++ "```") = extraction "{}".
Proof.
  destruct (fence_transparent "{}" eq_refl) as [Hjson Hbare].
  split; [exact Hjson|exact (Hbare eq_refl)].
Defined.

(** With the bare marker, the text [json[{}]] is extracted as an array,
    and as an object when it is not wrapped; between [```json] and [```],
    the text [```1```] is not extracted at all, and as the number 1 when it
    is not wrapped. *)
Lemma fence_extraction_values :
  extraction ("```" ++ "json[{}]" ++ "```") = Value (JArr [JObj []])
  /\ extraction "json[{}]" = Value (JObj [])
  /\ extraction ("```json" ++ "```1```" ++ "```")
     = Throws "Unable to extract valid JSON from Grok response"
  /\ extraction "```1```" = Value (JNum "1").
Proof. repeat split; vm_compute; reflexivity. Qed.

(** Two texts whose extraction changes when they are wrapped: one for each
    marker. *)
Lemma fence_changes_extraction :
  extraction ("```" ++ "json[{}]" ++ "```") <> extraction "json[{}]"
  /\ extraction ("```json" ++ "```1```" ++ "```") <> extraction "```1```".
Proof. split; vm_compute; discriminate. Qed.

Lemma unparsable_completion_fails_witness :
  serve Example.world_prose Example.req Example.db_stale
  = (Some failure, generation_calls Example.clean, Example.db_stale).
Proof.
  apply (unparsable_completion_fails Example.world_prose Example.req Example.clean
           Example.db_stale
           (JObj [("choices",
                   JArr [JObj [("message",
                                JObj [("content", JStr "I cannot help with that.")])]])])
           "I cannot help with that.").
  - exact (ExampleFacts.reaches Example.world_prose eq_refl eq_refl).
  - exact (ExampleFacts.stale_db_stale Example.world_prose eq_refl).
  - reflexivity.
  - vm_compute. reflexivity.
  - vm_compute. reflexivity.
  - vm_compute. reflexivity.
Defined.

Lemma timestamp_written_before_delivery_witness :
  exists resp before rest db' stamps,
    serve Example.world_no_mail Example.req Example.db_stale
    = (Some resp,
       (before ++ SubscribersUpsert (written_row Example.world_no_mail Example.clean
                                       Example.db_stale) :: rest)%list, db')
    /\ existsb delivery_call before = false
    /\ forallb delivery_call rest = true
    /\ Subscriber.lead_magnet_generated
         (written_row Example.world_no_mail Example.clean Example.db_stale)
       = Some stamps
    /\ stamps !! "IT Assessment"
       = Some (toISOString (clock Example.world_no_mail
                              (generation_calls Example.clean)))
    /\ (upsert_error Example.world_no_mail
          (written_row Example.world_no_mail Example.clean Example.db_stale) = None ->
        Table.find_email
          (Subscriber.email
             (written_row Example.world_no_mail Example.clean Example.db_stale)) db'
        = Some (written_row Example.world_no_mail Example.clean Example.db_stale)
        /\ (resp = {| status := 500;
                      body := BodyError "Failed to generate or email assessment" |}
            \/ exists url p id,
                 resp = success url
                 /\ rest = [RenderCreate p; Sleep 20000; RenderFetch id;
                            SendMail (mail_of (formData Example.clean) url)]
                 /\ render_create Example.world_no_mail p <> None
                 /\ render_fetch Example.world_no_mail id <> None
                 /\ sendMail Example.world_no_mail
                      (mail_of (formData Example.clean) url) = true)).
Proof.
  apply (timestamp_written_before_delivery Example.world_no_mail Example.req
           Example.clean Example.db_stale Example.assessment).
  - exact (ExampleFacts.reaches Example.world_no_mail eq_refl eq_refl).
  - exact (ExampleFacts.stale_db_stale Example.world_no_mail eq_refl).
  - exact (ExampleFacts.generates_assessment Example.world_no_mail eq_refl).
Defined.

(** When the mail is refused, the answer is the generic 500 and the table
    holds the stamp of the request, next to the stamp it already had for
    the other lead magnet. *)
Lemma refused_mail_keeps_stamp :
  exists log db' r stamps,
    serve Example.world_no_mail Example.req Example.db_stale = (Some failure, log, db')
    /\ count is_mail log = 1%nat
    /\ Table.find_email "ada@example.com" db' = Some r
    /\ Subscriber.lead_magnet_generated r = Some stamps
    /\ stamps !! "IT Assessment" = Some "2026-11-01T12:00:03.000Z"
    /\ stamps !! "Security Checklist" = Some "2026-09-15T08:30:00.000Z".
Proof.
  do 4 eexists. split; [vm_compute; reflexivity|].
  split; [reflexivity|]. split; [vm_compute; reflexivity|].
  split; [reflexivity|]. split; vm_compute; reflexivity.
Qed.

Lemma render_read_once_unchecked_witness :
  exists before p m db',
    serve Example.world_unrendered Example.req Example.db_stale
    = (Some {| status := 200;
               body := BodyGenerated "Assessment generated and emailed successfully"
                         JUndefined |},
       (before ++ [RenderCreate p; Sleep 20000; RenderFetch (JStr "doc-1");
                   SendMail m])%list,
       db')
    /\ Mail.pdfUrl m = JUndefined
    /\ existsb delivery_call before = false
    /\ count is_sleep
         (before ++ [RenderCreate p; Sleep 20000; RenderFetch (JStr "doc-1");
                     SendMail m])%list
       = 1%nat
    /\ count is_render_fetch
         (before ++ [RenderCreate p; Sleep 20000; RenderFetch (JStr "doc-1");
                     SendMail m])%list
       = 1%nat.
Proof.
  apply (render_read_once_unchecked Example.world_unrendered Example.req Example.clean
           Example.db_stale Example.assessment (JStr "doc-1") JUndefined).
  - exact (ExampleFacts.reaches Example.world_unrendered eq_refl eq_refl).
  - exact (ExampleFacts.stale_db_stale Example.world_unrendered eq_refl).
  - exact (ExampleFacts.generates_assessment Example.world_unrendered eq_refl).
  - exact ExampleFacts.assessment_has_sections.
  - reflexivity.
  - exact ExampleFacts.renders_unrendered.
  - reflexivity.
Defined.

Lemma upsert_preserves_other_magnets_witness :
  Table.select "tok-1" Example.db_stale
  = [Example.subscriber "2026-10-01T00:00:00.000Z"]
  /\ exists m,
      Subscriber.lead_magnet_generated (Example.subscriber "2026-10-01T00:00:00.000Z")
      = Some m
      /\ m !! "Security Checklist" = Some "2026-09-15T08:30:00.000Z"
      /\ m !! "IT Assessment" = Some "2026-10-01T00:00:00.000Z"
      /\ exists resp before rest db' r stamps,
          serve Example.world Example.req Example.db_stale
          = (Some resp, (before ++ SubscribersUpsert r :: rest)%list, db')
          /\ count is_upsert (before ++ SubscribersUpsert r :: rest)%list = 1%nat
          /\ Subscriber.lead_magnet_generated r = Some stamps
          /\ is_Some (stamps !! "IT Assessment")
          /\ stamps !! "Security Checklist" = Some "2026-09-15T08:30:00.000Z"
          /\ stamps !! "Backup Guide" = None
          /\ Subscriber.email r = "ada@example.com"
          /\ Subscriber.verification_token r = "tok-1"
          /\ Table.find_email "ada@example.com" db' = Some r.
Proof.
  split; [vm_compute; reflexivity|].
  eexists. split; [reflexivity|].
  split; [vm_compute; reflexivity|]. split; [vm_compute; reflexivity|].
  destruct (upsert_preserves_other_magnets Example.world Example.req Example.clean
              Example.db_stale Example.assessment
              (ExampleFacts.reaches Example.world eq_refl eq_refl)
              (ExampleFacts.stale_db_stale Example.world eq_refl)
              (ExampleFacts.generates_assessment Example.world eq_refl))
    as (resp & before & rest & db' & r & stamps
        & E & Hc & Hs & Hi & _ & He & Ht & Hrow & _ & Hstored).
  exists resp, before, rest, db', r, stamps.
  assert (Table.select (text (verificationToken Example.clean)) Example.db_stale
          = [Example.subscriber "2026-10-01T00:00:00.000Z"]) as Hsel
    by (vm_compute; reflexivity).
  destruct (Hrow _ _ Hsel) as (_ & _ & Hsome & _).
  destruct (Hsome _ eq_refl) as [Hkeys _].
  split; [exact E|]. split; [exact Hc|]. split; [exact Hs|]. split; [exact Hi|].
  split; [rewrite Hkeys by discriminate; vm_compute; reflexivity|].
  split; [rewrite Hkeys by discriminate; vm_compute; reflexivity|].
  split; [rewrite He; vm_compute; reflexivity|].
  split; [rewrite Ht; vm_compute; reflexivity|].
  replace "ada@example.com" with (Subscriber.email r)
    by (rewrite He; vm_compute; reflexivity).
  apply Hstored. reflexivity.
Defined.

End Instances.


(** * Every run of the route *)

Section Cases.
Context `{Runtime}.
Variable w : World.

Lemma bot_gate_cases req st :
  (present (honeypot req) = true
   /\ bot_gate w req st = (st, Returns bot_detected))
  \/ (present (honeypot req) = false
      /\ exists o,
          bot_gate w req st = (logged st [captcha_call req], o)
          /\ (o = Value tt \/ o = Returns bot_retry \/ exists e, o = Throws e)).
Proof.
  destruct (present (honeypot req)) eqn:Eh.
  - left. split; [reflexivity|]. now apply bot_gate_honeypot.
  - right. split; [reflexivity|].
    unfold bot_gate, bind, await, bind, record, prop, captcha_call. rewrite Eh. cbn.
    destruct (siteverify w (text (recaptchaToken req))) as [data|]; cbn.
    + destruct (get_prop data "success") as [success|]; cbn.
      * destruct (truthy success); cbn; eauto 6.
      * eauto 7.
    + eauto 7.
Qed.

Lemma required_check_cases req st :
  (missingFields (formData req) = [] /\ present (verificationToken req) = true
   /\ required_check req st = (st, Value tt))
  \/ ((missingFields (formData req) <> [] \/ present (verificationToken req) = false)
      /\ required_check req st = (st, Returns (missing_fields req))).
Proof.
  destruct (missingFields (formData req)) as [|f fs] eqn:Ef.
  - destruct (present (verificationToken req)) eqn:Et.
    + left. repeat split. now apply required_check_pass.
    + right. split; [now right|].
      unfold required_check, bind, missing_fields. now rewrite Ef, Et.
  - right. split; [left; discriminate|].
    unfold required_check, bind, missing_fields. now rewrite Ef.
Qed.

Lemma fetch_subscriber_cases tok st :
  fetch_subscriber w tok st
  = (logged st [SubscribersSelect tok], Value (Table.select tok (subscribers st)))
  \/ exists e, fetch_subscriber w tok st = (logged st [SubscribersSelect tok], Throws e).
Proof.
  unfold fetch_subscriber, bind, record, table, ret, throw.
  destruct (select_error w tok); cbn; eauto.
Qed.

Lemma stale_or_recent lm now : stale lm now \/ recent lm now.
Proof.
  unfold stale, recent.
  destruct (lm !! "IT Assessment") as [stamp|]; [|now left].
  destruct (is_empty stamp) eqn:Ee; [left; now left|].
  destruct (Date_parse stamp) as [last|] eqn:Ed; [|left; now right].
  destruct (Z_le_gt_dec (now - last) (48 * 3600000)).
  - right. exists stamp, last. auto.
  - left. right. lia.
Qed.

Lemma throttle_cases lm st :
  (stale lm (clock w (calls st)) /\ throttle w lm st = (st, Value tt))
  \/ (recent lm (clock w (calls st))
      /\ throttle w lm st = (st, Returns already_generated)).
Proof.
  destruct (stale_or_recent lm (clock w (calls st))) as [S|R].
  - left. split; [exact S|]. now apply throttle_stale.
  - right. split; [exact R|]. destruct R as (stamp & last & El & Ee & Ed & Hle).
    now apply (throttle_recent w lm st stamp last).
Qed.

(** What follows the generation, in every case. *)
Lemma deliver_cases fd tok lm assessment st :
  let r := stamped_row fd tok lm (clock w (calls st)) in
  (upsert_error w r <> None
   /\ exists e,
       deliver w fd tok lm assessment st
       = (logged st [SubscribersUpsert r], Throws e))
  \/ (upsert_error w r = None
      /\ ((exists l e,
              render_calls l
              /\ deliver w fd tok lm assessment st
                 = ({| calls := (calls st ++ SubscribersUpsert r :: l)%list;
                       subscribers := Table.upsert r (subscribers st) |}, Throws e))
          \/ (exists p id url o,
                 deliver w fd tok lm assessment st
                 = ({| calls := (calls st
                                 ++ [SubscribersUpsert r; RenderCreate p; Sleep 20000;
                                     RenderFetch id; SendMail (mail_of fd url)])%list;
                       subscribers := Table.upsert r (subscribers st) |}, o)
                 /\ ((sendMail w (mail_of fd url) = false /\ exists e, o = Throws e)
                     \/ (sendMail w (mail_of fd url) = true
                         /\ render_create w p <> None /\ render_fetch w id <> None
                         /\ o = Returns (success url)))))).
Proof.
  intros r. destruct (upsert_error w r) as [e|] eqn:E.
  - left. split; [discriminate|]. eexists. now apply (deliver_refused w _ _ _ _ _ e).
  - right. split; [reflexivity|]. unfold deliver.
    set (st1 := {| calls := (calls st ++ [SubscribersUpsert r])%list;
                   subscribers := Table.upsert r (subscribers st) |}).
    assert (update_subscriber w fd tok lm st = (st1, Value tt)) as U.
    { rewrite update_subscriber_run. cbn. fold r. now rewrite E. }
    rewrite (bind_value _ _ _ _ _ U).
    destruct (render_run w fd assessment st1) as (l & o & R & Hl & Ho).
    destruct Ho as [(url & p & id & -> & -> & Hc & Hf)|(e & ->)].
    + right. rewrite (bind_value _ _ _ _ _ R).
      pose proof (notify_run w fd url
                    (logged st1 [RenderCreate p; Sleep 20000; RenderFetch id])) as N.
      exists p, id, url.
      destruct (sendMail w (mail_of fd url)) eqn:Em.
      * rewrite (bind_value _ _ _ _ _ N). eexists. split.
        -- unfold respond, logged, st1. cbn [calls subscribers].
           rewrite <- !app_assoc. reflexivity.
        -- right. auto.
      * rewrite (bind_throws _ _ _ _ _ N). eexists. split.
        -- unfold logged, st1. cbn [calls subscribers].
           rewrite <- !app_assoc. reflexivity.
        -- left. eauto.
    + left. rewrite (bind_throws _ _ _ _ _ R). exists l, e. split; [exact Hl|].
      unfold logged, st1. cbn [calls subscribers]. now rewrite <- !app_assoc.
Qed.

(** The [try] block of a validated body runs in one of the ways of
    [run]. *)
Lemma pipeline_runs req' db :
  exists resp log db',
    try_catch (pipeline w req') (fun _ => respond 500 (body failure))
      {| calls := []; subscribers := db |}
    = ({| calls := log; subscribers := db' |}, Returns resp)
    /\ run w req' db resp log db'.
Proof.
  set (st0 := {| calls := []; subscribers := db |}).
  unfold try_catch, pipeline.
  destruct (bot_gate_cases req' st0) as [(Hh & G)|(Hh & o & G & Ho)].
  { rewrite (bind_returns _ _ _ _ _ G). do 3 eexists. split; [reflexivity|].
    now constructor. }
  destruct Ho as [-> | [-> | (e & ->)]];
    [ rewrite (bind_value _ _ _ _ _ G)
    | rewrite (bind_returns _ _ _ _ _ G); do 3 eexists;
      split; [reflexivity|constructor]
    | rewrite (bind_throws _ _ _ _ _ G); do 3 eexists;
      split; [reflexivity|constructor] ].
  set (st1 := logged st0 [captcha_call req']).
  destruct (required_check_cases req' st1) as [(Hf & Ht & Q)|(Hm & Q)].
  2:{ rewrite (bind_returns _ _ _ _ _ Q). do 3 eexists. split; [reflexivity|].
      now constructor. }
  rewrite (bind_value _ _ _ _ _ Q).
  destruct (fetch_subscriber_cases (text (verificationToken req')) st1) as [F|(e & F)].
  2:{ rewrite (bind_throws _ _ _ _ _ F). do 3 eexists. split; [reflexivity|].
      apply run_select_failed. }
  rewrite (bind_value _ _ _ _ _ F).
  change (logged st1 [SubscribersSelect (text (verificationToken req'))])
    with {| calls := lookup_calls req'; subscribers := db |}.
  change (leadMagnetData_of (Table.select (text (verificationToken req')) (subscribers st1)))
    with (fetched req' db).
  set (st2 := {| calls := lookup_calls req'; subscribers := db |}).
  destruct (throttle_cases (fetched req' db) st2) as [(S & T)|(R & T)].
  2:{ rewrite (bind_returns _ _ _ _ _ T). do 3 eexists. split; [reflexivity|].
      now apply run_recent. }
  rewrite (bind_value _ _ _ _ _ T).
  destruct (generateAssessment_call w (formData req') st2) as (o & Gn & Ho).
  destruct Ho as [(v & ->)| ->].
  2:{ rewrite (bind_throws _ _ _ _ _ Gn). do 3 eexists. split; [reflexivity|].
      now apply run_generation_failed. }
  rewrite (bind_value _ _ _ _ _ Gn).
  change (logged st2 [ChatCompletion (prompt_of (formData req'))])
    with {| calls := generation_calls req'; subscribers := db |}.
  set (st3 := {| calls := generation_calls req'; subscribers := db |}).
  destruct (deliver_cases (formData req') (text (verificationToken req'))
              (fetched req' db) v st3) as [(Hu & e & D)|(Hu & [D|D])].
  - rewrite D. do 3 eexists. split; [reflexivity|]. now apply run_upsert_refused.
  - destruct D as (l & e & Hl & D). rewrite D. do 3 eexists.
    split; [reflexivity|]. now apply run_render_failed.
  - destruct D as (p & id & url & o & D & [(Hm & e & ->)|(Hm & Hc & Hrf & ->)]);
      rewrite D; do 3 eexists; (split; [reflexivity|]).
    + now apply (run_mail_failed w req' db p id url).
    + now apply (run_delivered w req' db p id url).
Qed.

(** Every request is answered: with the validation errors, or by a run of
    the [try] block on the sanitized body. *)
Lemma serve_runs req db :
  (exists errors,
      errors <> []
      /\ fst (Validator.validate req) = errors
      /\ serve w req db = (Some {| status := 400; body := BodyErrors errors |}, [], db))
  \/ (exists req' resp log db',
         Validator.validate req = ([], req')
         /\ serve w req db = (Some resp, log, db')
         /\ run w req' db resp log db').
Proof.
  destruct (Validator.validate req) as [errors req'] eqn:V.
  destruct errors as [|e errors].
  - right. destruct (pipeline_runs req' db) as (resp & log & db' & P & Hr).
    exists req', resp, log, db'. split; [reflexivity|]. split; [|exact Hr].
    unfold serve. rewrite (handler_valid w _ _ _ V), P. reflexivity.
  - left. exists (e :: errors). split; [discriminate|]. split; [reflexivity|].
    unfold serve. rewrite handler_invalid; rewrite V; [reflexivity|discriminate].
Qed.

End Cases.

(** ** What every run keeps *)

Section Invariants.
Context `{Runtime}.
Variable w : World.

Lemma run_status req' db resp log db' :
  run w req' db resp log db' -> In (status resp) [200; 400; 403; 500].
Proof. destruct 1; cbn; tauto. Qed.

(** X1. Every request is answered, and the status of the answer is 200,
    400, 403 or 500. *)
Theorem route_always_answers req db :
  exists resp log db',
    serve w req db = (Some resp, log, db')
    /\ In (status resp) [200; 400; 403; 500].
Proof.
  destruct (serve_runs w req db)
    as [(errors & _ & _ & E)|(req' & resp & log & db' & _ & E & Hr)].
  - do 3 eexists. split; [exact E|]. cbn. tauto.
  - do 3 eexists. split; [exact E|]. exact (run_status _ _ _ _ _ Hr).
Qed.

Lemma run_order req' db resp log db' :
  run w req' db resp log db' ->
  exists rest, pipeline_order = (map kind log ++ rest)%list.
Proof.
  destruct 1; unfold generation_calls, lookup_calls, captcha_call;
    try match goal with Hl : render_calls _ |- _ => destruct Hl end;
    cbn; eexists; reflexivity.
Qed.

(** X2. The calls of a request are a beginning of the sequence
    verification, table read, completion, table write, render job, wait,
    job read, mail: each is made at most once, in that order, and none is
    made before the ones that precede it. *)
Theorem calls_follow_pipeline_order req db :
  exists rest, pipeline_order = (map kind (serve w req db).1.2 ++ rest)%list.
Proof.
  destruct (serve_runs w req db)
    as [(errors & _ & _ & E)|(req' & resp & log & db' & _ & E & Hr)]; rewrite E.
  - now exists pipeline_order.
  - exact (run_order _ _ _ _ _ Hr).
Qed.

Lemma run_not_consent req' db resp log db' :
  run w req' db resp log db' -> resp <> consent_required.
Proof.
  destruct 1; discriminate.
Qed.

(** X3. The answer [Consent is required.] of line 203 is never given: a
    body whose consent is not true has [consent] among its missing fields,
    and is answered by the check before. *)
Theorem consent_check_unreachable req db :
  (serve w req db).1.1 <> Some consent_required.
Proof.
  destruct (serve_runs w req db)
    as [(errors & _ & _ & E)|(req' & resp & log & db' & _ & E & Hr)]; rewrite E; cbn.
  - discriminate.
  - intros E'. inversion E'. subst. now apply (run_not_consent _ _ _ _ _ Hr).
Qed.

Lemma find_upsert_other r db e :
  e <> Subscriber.email r ->
  Table.find_email e (Table.upsert r db) = Table.find_email e db.
Proof.
  intros Hne. unfold Table.find_email, Table.upsert.
  induction db as [|x db IH]; cbn.
  - destruct (String.eqb_spec (Subscriber.email r) e); [congruence|reflexivity].
  - destruct (String.eqb_spec (Subscriber.email x) (Subscriber.email r)) as [Ex|Ex]; cbn.
    + destruct (String.eqb_spec (Subscriber.email r) e); [congruence|].
      destruct (String.eqb_spec (Subscriber.email x) e); [congruence|reflexivity].
    + destruct (String.eqb_spec (Subscriber.email x) e); [reflexivity|exact IH].
Qed.

Lemma run_table req' db resp log db' :
  run w req' db resp log db' ->
  db' = db
  \/ (In (SubscribersUpsert (written_row w req' db)) log
      /\ upsert_error w (written_row w req' db) = None
      /\ db' = Table.upsert (written_row w req' db) db).
Proof.
  destruct 1; auto; right; (split; [|split; [assumption|reflexivity]]);
    apply in_or_app; right; now left.
Qed.

(** X4. A request leaves the table as it was, or as the one accepted
    upsert of the row it logged makes it; in the second case the rows of
    every other email are as they were. *)
Theorem table_changes_by_one_upsert req db :
  (serve w req db).2 = db
  \/ exists r,
      In (SubscribersUpsert r) (serve w req db).1.2
      /\ upsert_error w r = None
      /\ (serve w req db).2 = Table.upsert r db
      /\ forall e, e <> Subscriber.email r ->
                   Table.find_email e (serve w req db).2 = Table.find_email e db.
Proof.
  destruct (serve_runs w req db)
    as [(errors & _ & _ & E)|(req' & resp & log & db' & _ & E & Hr)]; rewrite E; cbn.
  - now left.
  - destruct (run_table _ _ _ _ _ Hr) as [->|(Hin & Hu & ->)]; [now left|].
    right. exists (written_row w req' db). repeat split; auto.
    intros e He. now apply find_upsert_other.
Qed.

End Invariants.

(** ** What an answer tells *)

Section Converses.
Context `{Runtime}.
Variable w : World.

(** X5. The success answer is given only after the whole pipeline: the
    upsert was accepted, the render service answered the creation and the
    read of the job, the mail was accepted with the URL of the answer, and
    the table holds the row written. *)
Theorem success_means_delivered req db url log db' :
  serve w req db = (Some (success url), log, db') ->
  exists req' p id,
    Validator.validate req = ([], req')
    /\ log = (generation_calls req'
              ++ [SubscribersUpsert (written_row w req' db); RenderCreate p;
                  Sleep 20000; RenderFetch id;
                  SendMail (mail_of (formData req') url)])%list
    /\ upsert_error w (written_row w req' db) = None
    /\ render_create w p <> None
    /\ render_fetch w id <> None
    /\ sendMail w (mail_of (formData req') url) = true
    /\ db' = Table.upsert (written_row w req' db) db.
Proof.
  intros E.
  destruct (serve_runs w req db)
    as [(errors & _ & _ & E')|(req' & resp & log' & db'' & V & E' & Hr)];
    rewrite E in E'; [discriminate|].
  inversion E'. subst. inversion Hr; subst; try discriminate.
  exists req', p, id. repeat split; auto.
Qed.

(** X6. The already-generated answer is given only when the record found
    for the token holds a stamp that is a date at most 48 hours before the
    clock; the calls are then the verification and the read of the table,
    and the table is left as it was. *)
Theorem already_generated_means_recent req db log db' :
  serve w req db = (Some already_generated, log, db') ->
  exists req',
    Validator.validate req = ([], req')
    /\ recent (fetched req' db) (clock w (lookup_calls req'))
    /\ log = lookup_calls req'
    /\ db' = db.
Proof.
  intros E.
  destruct (serve_runs w req db)
    as [(errors & _ & _ & E')|(req' & resp & log' & db'' & V & E' & Hr)];
    rewrite E in E'; [discriminate|].
  inversion E'. subst. inversion Hr; subst; try discriminate.
  exists req'. auto.
Qed.

End Converses.

(** ** Failures on the way *)

Section Failures.
Context `{Runtime}.
Variable w : World.

Lemma serve_of_pipeline req req' db st o :
  Validator.validate req = ([], req') ->
  pipeline w req' {| calls := []; subscribers := db |} = (st, o) ->
  serve w req db = (answer o, calls st, subscribers st).
Proof.
  intros V P. unfold serve. rewrite (handler_valid w _ _ _ V).
  unfold try_catch. rewrite P. now destruct o.
Qed.

(** X7. When the verification service does not answer, or answers with no
    data to read [success] from, the request is answered with the generic
    500; nothing is called after the verification service. *)
Theorem verification_outage_fails req req' db :
  Validator.validate req = ([], req') ->
  present (honeypot req') = false ->
  (siteverify w (text (recaptchaToken req')) = None
   \/ exists data,
       siteverify w (text (recaptchaToken req')) = Some data
       /\ get_prop data "success" = None) ->
  serve w req db = (Some failure, [captcha_call req'], db).
Proof.
  intros V Hh Hs.
  assert (exists e, bot_gate w req' {| calls := []; subscribers := db |}
                    = ({| calls := [captcha_call req']; subscribers := db |}, Throws e))
    as (e & G).
  { unfold bot_gate, bind, await, bind, record, prop, captcha_call. rewrite Hh. cbn.
    destruct Hs as [-> | (data & -> & Ep)]; cbn; [eauto|]. rewrite Ep. cbn. eauto. }
  unfold pipeline in *.
  now rewrite (serve_of_pipeline req req' db _ _ V (bind_throws _ _ _ _ _ G)).
Qed.

(** The request passes the bot gate. *)
Lemma bot_gate_pass req' st :
  present (honeypot req') = false ->
  (exists data success,
      siteverify w (text (recaptchaToken req')) = Some data
      /\ get_prop data "success" = Some success
      /\ truthy success = true) ->
  bot_gate w req' st = (logged st [captcha_call req'], Value tt).
Proof.
  intros Hh (data & success & Es & Ep & Et).
  rewrite (bot_gate_verdict w req' st data success Hh Es Ep). now rewrite Et.
Qed.

(** X8. A body that passes the validation and the bot gate but lacks the
    verification token, or a required field once sanitized, is answered
    with status 400 and the list of the missing fields; the verification
    service has been called, the table is not read. *)
Theorem second_check_rejects req req' db :
  Validator.validate req = ([], req') ->
  present (honeypot req') = false ->
  (exists data success,
      siteverify w (text (recaptchaToken req')) = Some data
      /\ get_prop data "success" = Some success
      /\ truthy success = true) ->
  (missingFields (formData req') <> []
   \/ present (verificationToken req') = false) ->
  serve w req db = (Some (missing_fields req'), [captcha_call req'], db).
Proof.
  intros V Hh Hs Hm.
  pose proof (bot_gate_pass req' {| calls := []; subscribers := db |} Hh Hs) as G.
  destruct (required_check_cases req' (logged {| calls := []; subscribers := db |}
                                         [captcha_call req']))
    as [(Hf & Ht & _)|(_ & Q)].
  { destruct Hm as [Hm|Hm]; [now destruct Hm|congruence]. }
  assert (pipeline w req' {| calls := []; subscribers := db |}
          = (logged {| calls := []; subscribers := db |} [captcha_call req'],
             Returns (missing_fields req'))) as P.
  { unfold pipeline. rewrite (bind_value _ _ _ _ _ G).
    now rewrite (bind_returns _ _ _ _ _ Q). }
  now rewrite (serve_of_pipeline req req' db _ _ V P).
Qed.

(** X9. When the read of the table reports an error, the request is
    answered with the generic 500 after the verification and the read: the
    completion API is not called and the table is left as it was. *)
Theorem table_read_error_fails req req' db e :
  Validator.validate req = ([], req') ->
  present (honeypot req') = false ->
  (exists data success,
      siteverify w (text (recaptchaToken req')) = Some data
      /\ get_prop data "success" = Some success
      /\ truthy success = true) ->
  missingFields (formData req') = [] ->
  present (verificationToken req') = true ->
  select_error w (text (verificationToken req')) = Some e ->
  serve w req db = (Some failure, lookup_calls req', db).
Proof.
  intros V Hh Hs Hf Ht He.
  set (st0 := {| calls := []; subscribers := db |}).
  pose proof (bot_gate_pass req' st0 Hh Hs) as G.
  pose proof (required_check_pass req' (logged st0 [captcha_call req']) Hf Ht) as Q.
  assert (fetch_subscriber w (text (verificationToken req'))
            (logged st0 [captcha_call req'])
          = ({| calls := lookup_calls req'; subscribers := db |},
             Throws "Error checking subscriber data")) as F.
  { unfold fetch_subscriber, bind, record. now rewrite He. }
  assert (pipeline w req' st0
          = ({| calls := lookup_calls req'; subscribers := db |},
             Throws "Error checking subscriber data")) as P.
  { unfold pipeline. rewrite (bind_value _ _ _ _ _ G), (bind_value _ _ _ _ _ Q).
    now rewrite (bind_throws _ _ _ _ _ F). }
  now rewrite (serve_of_pipeline req req' db _ _ V P).
Qed.

(** X10. When the table refuses the upsert, the request is answered with
    the generic 500 after the generation: no render job is submitted, no
    mail is sent, and the table is left as it was. *)
Theorem refused_upsert_fails req req' db assessment e :
  reaches_check w req req' ->
  stale (fetched req' db) (clock w (lookup_calls req')) ->
  generates w (formData req') assessment ->
  upsert_error w (written_row w req' db) = Some e ->
  serve w req db
  = (Some failure,
     (generation_calls req' ++ [SubscribersUpsert (written_row w req' db)])%list, db).
Proof.
  intros R S G E.
  destruct (updater_run w req req' db assessment R S G)
    as (resp & rest & db' & Es & _ & _ & Hno).
  destruct Hno as (-> & -> & ->); [congruence|]. exact Es.
Qed.

Lemma render_without_sections fd assessment st :
  (get_prop assessment "assessmentSections" = None
   \/ exists secs,
       get_prop assessment "assessmentSections" = Some secs /\ nullish secs = true) ->
  exists e, render w fd assessment st = (st, Throws e).
Proof.
  intros Hs. unfold render, section, prop, index, new_Date, bind, history, ret, throw.
  cbn. destruct Hs as [-> | (secs & -> & Hn)]; [eauto|].
  assert (get_index secs 0 = None) as ->
    by (unfold get_index, nullish in *; destruct secs; congruence).
  eauto.
Qed.

(** X11. When the assessment extracted from the completion has no
    [assessmentSections] to index (the value is absent or null, or the
    assessment itself is null), the stamp is written first and the render
    job is never submitted: the answer is the generic 500, the calls stop
    at the upsert, and the table holds the new stamp. *)
Theorem sectionless_assessment_stamped req req' db assessment :
  reaches_check w req req' ->
  stale (fetched req' db) (clock w (lookup_calls req')) ->
  generates w (formData req') assessment ->
  (get_prop assessment "assessmentSections" = None
   \/ exists secs,
       get_prop assessment "assessmentSections" = Some secs /\ nullish secs = true) ->
  upsert_error w (written_row w req' db) = None ->
  serve w req db
  = (Some failure,
     (generation_calls req' ++ [SubscribersUpsert (written_row w req' db)])%list,
     Table.upsert (written_row w req' db) db).
Proof.
  intros R S G Hs Hu.
  pose proof (from_check_generates w req' db assessment S G) as F.
  set (st0 := {| calls := generation_calls req'; subscribers := db |}) in F.
  set (st1 := {| calls := (calls st0 ++ [SubscribersUpsert (written_row w req' db)])%list;
                 subscribers := Table.upsert (written_row w req' db) db |}).
  assert (update_subscriber w (formData req') (text (verificationToken req'))
            (fetched req' db) st0 = (st1, Value tt)) as U.
  { rewrite update_subscriber_run. cbv zeta.
    change (stamped_row (formData req') (text (verificationToken req'))
              (fetched req' db) (clock w (calls st0)))
      with (written_row w req' db).
    now rewrite Hu. }
  destruct (render_without_sections (formData req') assessment st1 Hs) as (e & Rn).
  unfold deliver in F.
  rewrite (bind_value _ _ _ _ _ U), (bind_throws _ _ _ _ _ Rn) in F.
  now rewrite (serve_reaches_check w _ _ _ _ _ R F).
Qed.

End Failures.

(** ** The validation chains, both ways *)

Section Chains.
Context `{Runtime}.
Variable w : World.

Import Validator.

Lemma check_nil b path : check b path = [] <-> b = true.
Proof. destruct b; cbn; split; congruence. Qed.

Lemma validate_sanitized req : snd (validate req) = sanitized req.
Proof.
  unfold validate, text_chain, sanitized.
  now destruct (it_setup (formData req)).
Qed.

Lemma validate_passes req :
  fst (validate req) = []
  <-> isLength 1 50 (trim (toString (name (formData req)))) = true
      /\ isEmail (toString (email (formData req))) = true
      /\ isLength 1 100 (trim (toString (company (formData req)))) = true
      /\ isIn company_sizes (toString (company_size (formData req))) = true
      /\ isLength 1 100 (trim (toString (it_challenge (formData req)))) = true
      /\ (forall u, it_setup (formData req) = Some u ->
                    isLength 0 200 (trim u) = true)
      /\ isBoolean (boolToString (consent (formData req))) = true
      /\ equals "true" (boolToString (consent (formData req))) = true
      /\ notEmpty (toString (recaptchaToken req)) = true.
Proof.
  unfold validate, text_chain.
  destruct (it_setup (formData req)) as [u|]; cbn [fst];
    rewrite !app_nil, !check_nil; cbn [toString default]; split.
  - intros (A & B & C & D & E & F & (G & I) & J). repeat split; auto.
    intros u' [= <-]. exact F.
  - intros (A & B & C & D & E & F & G & I & J). repeat split; auto.
  - intros (A & B & C & D & E & _ & (G & I) & J). repeat split; auto.
    intros u' [=].
  - intros (A & B & C & D & E & F & G & I & J). repeat split; auto.
Qed.

Lemma isLength_min_present s max :
  isLength 1 max (trim s) = true -> is_empty (trim s) = false.
Proof. unfold isLength. destruct (trim s); [discriminate|reflexivity]. Qed.

Lemma isIn_In options s : isIn options s = true <-> In s options.
Proof.
  unfold isIn. rewrite existsb_exists. split.
  - intros (x & Hin & E). apply String.eqb_eq in E. now subst.
  - intros Hin. exists s. split; [exact Hin|apply String.eqb_refl].
Qed.

Lemma consent_true c :
  isBoolean (boolToString c) = true /\ equals "true" (boolToString c) = true
  <-> c = Some true.
Proof. destruct c as [[|]|]; cbn; intuition congruence. Qed.

Lemma well_formed_passes req :
  isEmail "" = false -> (well_formed req <-> fst (validate req) = []).
Proof.
  intros Hempty. rewrite validate_passes. split.
  - intros [(n & En & Hn) (e & Ee & He) (c & Ec & Hc) (z & Ez & Hz) (g & Eg & Hg)
              Hu Hk (t & Et & Ht)].
    destruct (proj2 (consent_true _) Hk) as [Hb Hq].
    rewrite En, Ee, Ec, Ez, Eg, Et. cbn [toString default].
    assert (notEmpty t = true) as Hne by (unfold notEmpty; now rewrite Ht).
    repeat split; auto.
    + now apply isIn_In.
    + intros u Eu. unfold isLength. apply andb_true_iff. split; [reflexivity|].
      apply Nat.leb_le. now apply Hu.
  - intros (Hn & He & Hc & Hz & Hg & Hu & Hb & Hq & Ht). constructor.
    + destruct (name (formData req)) as [n|]; [eauto|].
      cbn in Hn. rewrite trim_empty in Hn. discriminate.
    + destruct (email (formData req)) as [e|]; [eauto|].
      cbn in He. congruence.
    + destruct (company (formData req)) as [c|]; [eauto|].
      cbn in Hc. rewrite trim_empty in Hc. discriminate.
    + destruct (company_size (formData req)) as [z|]; [|discriminate].
      exists z. split; [reflexivity|]. now apply isIn_In.
    + destruct (it_challenge (formData req)) as [g|]; [eauto|].
      cbn in Hg. rewrite trim_empty in Hg. discriminate.
    + intros u Eu. specialize (Hu u Eu). unfold isLength in Hu.
      apply andb_true_iff in Hu as [_ Hu]. now apply Nat.leb_le.
    + now apply consent_true.
    + destruct (recaptchaToken req) as [t|]; [|discriminate].
      exists t. split; [reflexivity|]. unfold notEmpty in Ht. cbn in Ht.
      now destruct (is_empty t).
Qed.

(** X12. With an [isEmail] that refuses the empty text: a well-formed body
    passes every chain and goes on as the sanitizers leave it; any other
    body is answered with status 400 and a non-empty list of errors, before
    any call. *)
Theorem validation_gate req :
  isEmail "" = false ->
  (well_formed req -> validate req = ([], sanitized req))
  /\ (~ well_formed req ->
      exists errors,
        errors <> []
        /\ forall db,
            serve w req db
            = (Some {| status := 400; body := BodyErrors errors |}, [], db)).
Proof.
  intros Hempty. pose proof (well_formed_passes req Hempty) as Hwf.
  pose proof (validate_sanitized req) as Hs. split.
  - intros Hw. apply Hwf in Hw.
    destruct (validate req) as [errors req']. cbn in *. now subst.
  - intros Hn. exists (fst (validate req)).
    assert (fst (validate req) <> []) as Hne by (intros E; now apply Hn, Hwf).
    split; [exact Hne|]. intros db. unfold serve. now rewrite handler_invalid.
Qed.

Lemma missingFields_nil fd :
  present (name fd) = true -> present (email fd) = true ->
  present (company fd) = true -> present (company_size fd) = true ->
  present (it_challenge fd) = true -> consent fd = Some true ->
  missingFields fd = [].
Proof.
  intros Hn He Hc Hz Hg Hk. unfold missingFields, requiredFields, field_truthy.
  simpl. now rewrite Hn, He, Hc, Hz, Hg, Hk.
Qed.

(** X13. For a well-formed body, when [escape] keeps a non-empty text
    non-empty and [normalizeEmail] returns a non-empty address, the second
    check finds no missing field: only a missing verification token can
    still fail it. *)
Theorem second_check_redundant req e :
  well_formed req ->
  (forall s, is_empty s = false -> is_empty (escape s) = false) ->
  normalizeEmail (toString (email (formData req))) = Some e ->
  is_empty e = false ->
  missingFields (formData (sanitized req)) = [].
Proof.
  intros [(n & En & Hn) _ (c & Ec & Hc) (z & Ez & Hz) (g & Eg & Hg) _ Hk _]
    Hesc Ee Hne.
  apply isLength_min_present in Hn, Hc, Hg.
  assert (is_empty z = false) as Hzne.
  { cbn in Hz. destruct Hz as [<-|[<-|[<-|[<-|[]]]]]; reflexivity. }
  apply missingFields_nil; unfold sanitized; cbn [formData name email company
    company_size it_challenge consent]; rewrite ?En, ?Ec, ?Eg, ?Ez, ?Ee;
    cbn [toString default from_option id present];
    rewrite ?(Hesc _ Hn), ?(Hesc _ Hc), ?(Hesc _ Hg), ?Hne, ?Hzne; auto.
Qed.

End Chains.

(** ** The generator, in every case *)

Section GeneratorCases.
Context `{Runtime}.
Variable w : World.

Lemma content_of_unfold data :
  content_of data
  = match get_prop data "choices" with
    | Some choices =>
        match get_index choices 0 with
        | Some choice =>
            match get_prop choice "message" with
            | Some message => get_prop message "content"
            | None => None
            end
        | None => None
        end
    | None => None
    end.
Proof.
  unfold content_of. destruct (get_prop data "choices") as [choices|]; [|reflexivity].
  cbn. destruct (get_index choices 0) as [choice|]; [|reflexivity].
  cbn. now destruct (get_prop choice "message").
Qed.

(** X14. [generateAssessment] makes one call to the completion API and
    nothing else.  It returns a value exactly when the API answered with a
    content that is a string from which that value is extracted; in every
    other case (no answer, an answer without [choices[0].message.content],
    a content that is not a string, a text that cannot be parsed) it throws
    the one error [Failed to generate assessment with Grok API]. *)
Theorem generator_outcome fd st :
  exists o,
    generateAssessment w fd st = (logged st [ChatCompletion (prompt_of fd)], o)
    /\ ((exists v, o = Value v /\ generates w fd v)
        \/ (o = Throws "Failed to generate assessment with Grok API"
            /\ forall v, ~ generates w fd v)).
Proof.
  unfold generates.
  unfold generateAssessment, try_catch, bind, await, bind, record, prop, index.
  destruct (chat_completion w (prompt_of fd)) as [data|] eqn:Ec; cbn.
  2:{ eexists. split; [reflexivity|]. right. split; [reflexivity|].
      intros v (d & raw & E & _). discriminate. }
  assert (forall v,
             (exists d raw, Some data = Some d /\ content_of d = Some (JStr raw)
                            /\ extraction raw = Value v)
             <-> exists raw, content_of data = Some (JStr raw)
                             /\ extraction raw = Value v) as Hgen.
  { intros v. split.
    - intros (d & raw & [= <-] & Hc & Hx). eauto.
    - intros (raw & Hc & Hx). eauto. }
  rewrite content_of_unfold in Hgen.
  destruct (get_prop data "choices") as [choices|]; cbn.
  2:{ eexists. split; [reflexivity|]. right. split; [reflexivity|].
      intros v Hv. apply Hgen in Hv as (raw & Hc & _). discriminate. }
  destruct (get_index choices 0) as [choice|]; cbn.
  2:{ eexists. split; [reflexivity|]. right. split; [reflexivity|].
      intros v Hv. apply Hgen in Hv as (raw & Hc & _). discriminate. }
  destruct (get_prop choice "message") as [message|]; cbn.
  2:{ eexists. split; [reflexivity|]. right. split; [reflexivity|].
      intros v Hv. apply Hgen in Hv as (raw & Hc & _). discriminate. }
  destruct (get_prop message "content") as [content|]; cbn.
  2:{ eexists. split; [reflexivity|]. right. split; [reflexivity|].
      intros v Hv. apply Hgen in Hv as (raw & Hc & _). discriminate. }
  destruct content as [| | | |raw| |]; cbn;
    try (eexists; split; [reflexivity|]; right; split; [reflexivity|];
         intros v Hv; apply Hgen in Hv as (raw' & Hc & _); discriminate).
  rewrite extract_json_state.
  destruct (extraction raw) as [v|e|r] eqn:Ex; cbn.
  - eexists. split; [reflexivity|]. left. exists v. split; [reflexivity|].
    apply Hgen. eauto.
  - eexists. split; [reflexivity|]. right. split; [reflexivity|].
    intros v Hv. apply Hgen in Hv as (raw' & [= <-] & Hx). congruence.
  - rewrite extraction_value in Ex.
    destruct (JSON_parse (strip_fence raw)); [discriminate|].
    destruct (match_braces raw) as [m|]; [|discriminate].
    destruct (JSON_parse m); discriminate.
Qed.

End GeneratorCases.

(** ** Text around the braces *)

Section Braces.
Context `{Runtime}.

Lemma through_last_close_closing post :
  lacks "}" post = true -> through_last_close post = None.
Proof.
  induction post as [|c post IH]; [reflexivity|]. cbn [lacks].
  intros Hl. apply andb_true_iff in Hl as [Hc Hl].
  rewrite through_last_close_unfold, (IH Hl).
  now destruct (Ascii.eqb c "}").
Qed.

Lemma through_last_close_prefix mid rest t :
  through_last_close rest = Some t ->
  through_last_close (mid ++ rest) = Some (mid ++ t).
Proof.
  intros E. induction mid as [|c mid IH]; [exact E|].
  rewrite !append_cons, through_last_close_unfold, IH. reflexivity.
Qed.

Lemma match_braces_skip pre rest :
  lacks "{" pre = true -> match_braces (pre ++ rest) = match_braces rest.
Proof.
  induction pre as [|c pre IH]; [reflexivity|]. cbn [lacks].
  intros Hl. apply andb_true_iff in Hl as [Hc Hl].
  rewrite append_cons, match_braces_unfold, (IH Hl).
  now destruct (Ascii.eqb c "{").
Qed.

(** The regular expression on a text with one run of braces: what comes
    before the first opening brace and after the last closing brace is
    dropped. *)
Lemma match_braces_between pre mid post :
  lacks "{" pre = true -> lacks "}" post = true ->
  match_braces (pre ++ String "{" (mid ++ "}") ++ post)
  = Some (String "{" (mid ++ "}")).
Proof.
  intros Hpre Hpost. rewrite (match_braces_skip _ _ Hpre).
  rewrite append_cons, match_braces_unfold. cbn [Ascii.eqb Bool.eqb].
  replace ((mid ++ "}") ++ post) with (mid ++ String "}" post).
  - rewrite (through_last_close_prefix mid (String "}" post) "}"); [reflexivity|].
    rewrite through_last_close_unfold, (through_last_close_closing _ Hpost).
    reflexivity.
  - induction mid as [|c mid IH]; [reflexivity|].
    rewrite !append_cons. now rewrite IH.
Qed.

(** X15. A completion that is an object in braces with text around it,
    the text before holding no opening brace and the text after no closing
    brace, and that is not JSON as a whole: the generator falls back on the
    text from the first opening brace to the last closing brace, and the
    result is the parse of that text. *)
Theorem prose_around_json_dropped pre mid post :
  lacks "{" pre = true ->
  lacks "}" post = true ->
  JSON_parse (strip_fence (pre ++ String "{" (mid ++ "}") ++ post)) = None ->
  extraction (pre ++ String "{" (mid ++ "}") ++ post)
  = match JSON_parse (String "{" (mid ++ "}")) with
    | Some v => Value v
    | None => Throws "SyntaxError"
    end.
Proof.
  intros Hpre Hpost Hp.
  now rewrite extraction_value, Hp, (match_braces_between _ _ _ Hpre Hpost).
Qed.

End Braces.

(** ** A second request after the write *)

Section Repeat.
Context `{Runtime}.
Variable w : World.

Lemma select_cons tok x db :
  Table.select tok (x :: db)
  = if decide (Subscriber.verification_token x = tok)
    then x :: Table.select tok db else Table.select tok db.
Proof. unfold Table.select. now rewrite filter_cons. Qed.

Lemma upsert_cons r x db :
  Table.upsert r (x :: db)
  = if String.eqb (Subscriber.email x) (Subscriber.email r)
    then r :: db else x :: Table.upsert r db.
Proof. reflexivity. Qed.

(** The row written is the first one found for its token, when the rows
    found before the write were none or began with a row of its email. *)
Lemma select_upsert_head r db :
  (forall x rest,
      Table.select (Subscriber.verification_token r) db = x :: rest ->
      Subscriber.email x = Subscriber.email r) ->
  exists rest,
    Table.select (Subscriber.verification_token r) (Table.upsert r db) = r :: rest.
Proof.
  induction db as [|x db IH]; intros Hhead.
  - exists []. change (Table.upsert r []) with [r].
    rewrite select_cons. now destruct (decide _).
  - rewrite upsert_cons.
    destruct (String.eqb_spec (Subscriber.email x) (Subscriber.email r)) as [Ex|Ex].
    + eexists. rewrite select_cons. destruct (decide _); [reflexivity|congruence].
    + rewrite select_cons in Hhead. rewrite select_cons.
      destruct (decide (Subscriber.verification_token x = Subscriber.verification_token r)).
      * destruct Ex. now apply (Hhead x (Table.select (Subscriber.verification_token r) db)).
      * apply IH. exact Hhead.
Qed.

(** X16. After a request whose upsert was accepted, a second request with
    the same verification token that reaches the check at most 48 hours
    after the stamp is answered as already generated, whatever became of
    the first one after the write.  This holds when the rows found for the
    token before the write were none or began with a row of the email of
    the form, and when the stamp written parses back to its time. *)
Theorem repeat_request_throttled (w2 : World) req req' req2 req2' db assessment :
  reaches_check w req req' ->
  stale (fetched req' db) (clock w (lookup_calls req')) ->
  generates w (formData req') assessment ->
  upsert_error w (written_row w req' db) = None ->
  (forall x rest,
      Table.select (text (verificationToken req')) db = x :: rest ->
      Subscriber.email x = text (email (formData req'))) ->
  is_empty (toISOString (clock w (generation_calls req'))) = false ->
  Date_parse (toISOString (clock w (generation_calls req')))
  = Some (clock w (generation_calls req')) ->
  reaches_check w2 req2 req2' ->
  verificationToken req2' = verificationToken req' ->
  clock w2 (lookup_calls req2') - clock w (generation_calls req') <= 48 * 3600000 ->
  exists resp log db',
    serve w req db = (Some resp, log, db')
    /\ serve w2 req2 db' = (Some already_generated, lookup_calls req2', db').
Proof.
  intros R S G Hu Hhead Hne Hrt R2 Etok Hle.
  destruct (updater_run w req req' db assessment R S G)
    as (resp & rest & db' & E & _ & Hok & _).
  destruct (Hok Hu) as (-> & _).
  exists resp. do 2 eexists. split; [exact E|].
  destruct (select_upsert_head (written_row w req' db) db Hhead) as (tl & Hsel).
  assert (fetched req2' (Table.upsert (written_row w req' db) db)
            !! "IT Assessment"
          = Some (toISOString (clock w (generation_calls req')))) as Hl.
  { unfold fetched. rewrite Etok.
    change (text (verificationToken req'))
      with (Subscriber.verification_token (written_row w req' db)).
    rewrite Hsel. cbn. apply lookup_insert_eq. }
  rewrite (serve_reaches_check w2 req2 req2' _
             {| calls := lookup_calls req2';
                subscribers := Table.upsert (written_row w req' db) db |}
             (Returns already_generated) R2); [reflexivity|].
  unfold from_check. apply bind_returns.
  now apply (throttle_recent w2 _ _ _ _ Hl Hne Hrt).
Qed.

End Repeat.

(** ** What is sent out *)

Section Content.
Context `{Runtime}.
Variable w : World.

Lemma render_payload fd assessment st secs s0 s1 s2 s3 pdata doc id fdata fdoc url :
  get_prop assessment "assessmentSections" = Some secs ->
  get_index secs 0 = Some s0 -> get_index secs 1 = Some s1 ->
  get_index secs 2 = Some s2 -> get_index secs 3 = Some s3 ->
  (forall p, render_create w p = Some pdata) ->
  get_prop pdata "document" = Some doc ->
  get_prop doc "id" = Some id ->
  render_fetch w id = Some fdata ->
  get_prop fdata "document" = Some fdoc ->
  get_prop fdoc "download_url" = Some url ->
  render w fd assessment st
  = (logged st
       [RenderCreate
          {| Payload.name := text (name fd);
             Payload.company := text (company fd);
             Payload.company_size := text (company_size fd);
             Payload.it_challenge := text (it_challenge fd);
             Payload.it_setup := setup_or_default fd;
             Payload.date := before_T (toISOString (clock w (calls st)));
             Payload.overview := s0;
             Payload.challengeAnalysis := s1;
             Payload.recommendations := s2;
             Payload.nextSteps := s3 |};
        Sleep 20000; RenderFetch id], Value url).
Proof.
  intros Es E0 E1 E2 E3 Hc Ed Ei Hf Efd Eu.
  unfold render, section, prop, index, await, new_Date, bind, history, record,
    ret, throw.
  cbn. rewrite Es, E0, E1, E2, E3, Hc, Ed, Ei. cbn. rewrite Hf, Efd, Eu.
  repeat rewrite <- app_assoc. reflexivity.
Qed.

(** X17. In a delivered run, the render job and the mail carry the form
    as the sanitizers leave it: name, company and challenge trimmed then
    escaped, the address as [normalizeEmail] returns it, the company size
    as sent.  The job carries the first four entries of
    [assessmentSections] and the date part of the clock read after the
    upsert; the mail carries the URL read from the job. *)
Theorem delivered_content req db assessment secs s0 s1 s2 s3 id url n c z g e :
  reaches_check w req (sanitized req) ->
  stale (fetched (sanitized req) db) (clock w (lookup_calls (sanitized req))) ->
  generates w (formData (sanitized req)) assessment ->
  get_prop assessment "assessmentSections" = Some secs ->
  get_index secs 0 = Some s0 -> get_index secs 1 = Some s1 ->
  get_index secs 2 = Some s2 -> get_index secs 3 = Some s3 ->
  (forall r, upsert_error w r = None) ->
  renders w id url ->
  (forall m, sendMail w m = true) ->
  name (formData req) = Some n ->
  company (formData req) = Some c ->
  company_size (formData req) = Some z ->
  it_challenge (formData req) = Some g ->
  normalizeEmail (Validator.toString (email (formData req))) = Some e ->
  serve w req db
  = (Some (success url),
     (generation_calls (sanitized req)
      ++ [SubscribersUpsert (written_row w (sanitized req) db);
          RenderCreate
            {| Payload.name := escape (trim n);
               Payload.company := escape (trim c);
               Payload.company_size := z;
               Payload.it_challenge := escape (trim g);
               Payload.it_setup := setup_or_default (formData (sanitized req));
               Payload.date :=
                 before_T
                   (toISOString
                      (clock w (generation_calls (sanitized req)
                                ++ [SubscribersUpsert
                                      (written_row w (sanitized req) db)])%list));
               Payload.overview := s0;
               Payload.challengeAnalysis := s1;
               Payload.recommendations := s2;
               Payload.nextSteps := s3 |};
          Sleep 20000; RenderFetch id;
          SendMail
            {| Mail.to := e;
               Mail.subject := "Your IT Assessment from Betechpro";
               Mail.name := escape (trim n);
               Mail.company := escape (trim c);
               Mail.pdfUrl := url |}])%list,
     Table.upsert (written_row w (sanitized req) db) db).
Proof.
  intros R S G Es E0 E1 E2 E3 Hu
    (pdata & doc & fdata & fdoc & Hc & Ed & Ei & Hf & Efd & Eu) Hm En Ec Ez Eg Ee.
  set (req' := sanitized req) in *.
  pose proof (from_check_generates w req' db assessment S G) as F.
  set (st0 := {| calls := generation_calls req'; subscribers := db |}) in F.
  set (st1 := {| calls := (calls st0 ++ [SubscribersUpsert (written_row w req' db)])%list;
                 subscribers := Table.upsert (written_row w req' db) db |}).
  assert (update_subscriber w (formData req') (text (verificationToken req'))
            (fetched req' db) st0 = (st1, Value tt)) as U.
  { rewrite update_subscriber_run. cbn.
    now rewrite (Hu (stamped_row _ _ _ _)). }
  pose proof (render_payload (formData req') assessment st1 secs s0 s1 s2 s3
                pdata doc id fdata fdoc url Es E0 E1 E2 E3 Hc Ed Ei Hf Efd Eu) as Rn.
  pose proof (notify_run w (formData req') url
                (logged st1 [RenderCreate
                               {| Payload.name := text (name (formData req'));
                                  Payload.company := text (company (formData req'));
                                  Payload.company_size :=
                                    text (company_size (formData req'));
                                  Payload.it_challenge :=
                                    text (it_challenge (formData req'));
                                  Payload.it_setup := setup_or_default (formData req');
                                  Payload.date :=
                                    before_T (toISOString (clock w (calls st1)));
                                  Payload.overview := s0;
                                  Payload.challengeAnalysis := s1;
                                  Payload.recommendations := s2;
                                  Payload.nextSteps := s3 |};
                             Sleep 20000; RenderFetch id])) as N.
  rewrite Hm in N.
  unfold deliver in F.
  rewrite (bind_value _ _ _ _ _ U), (bind_value _ _ _ _ _ Rn),
    (bind_value _ _ _ _ _ N) in F.
  unfold respond in F.
  rewrite (serve_reaches_check w req req' db _ _ R F).
  assert (text (name (formData req')) = escape (trim n)) as Tn
    by (unfold req', sanitized; cbn [formData name]; now rewrite En).
  assert (text (company (formData req')) = escape (trim c)) as Tc
    by (unfold req', sanitized; cbn [formData company]; now rewrite Ec).
  assert (text (it_challenge (formData req')) = escape (trim g)) as Tg
    by (unfold req', sanitized; cbn [formData it_challenge]; now rewrite Eg).
  assert (text (company_size (formData req')) = z) as Tz
    by (unfold req', sanitized; cbn [formData company_size]; now rewrite Ez).
  assert (text (email (formData req')) = e) as Te
    by (unfold req', sanitized; cbn [formData email]; now rewrite Ee).
  unfold logged, st1, st0, mail_of. cbn [calls subscribers answer].
  rewrite <- !app_assoc. cbn [app]. rewrite Tn, Tc, Tg, Tz, Te. reflexivity.
Qed.

End Content.

(** ** Further instances *)

Module ScenarioFacts.

Import Reference Example Scenario.

Lemma human (w : World) (r : Request) :
  siteverify w = siteverify world ->
  recaptchaToken r = recaptchaToken req ->
  exists data success,
    siteverify w (text (recaptchaToken r)) = Some data
    /\ get_prop data "success" = Some success
    /\ truthy success = true.
Proof.
  intros -> ->. exists (JObj [("success", JBool true)]), (JBool true).
  repeat split; vm_compute; reflexivity.
Defined.

Lemma req_no_token_valid : Validator.validate req_no_token = ([], clean_no_token).
Proof. vm_compute. reflexivity. Defined.

Lemma clean_sanitized : sanitized req = clean.
Proof. vm_compute. reflexivity. Defined.

Lemma req_well_formed : well_formed req.
Proof.
  constructor; cbn.
  - eexists. split; [reflexivity|]. vm_compute. reflexivity.
  - eexists. split; [reflexivity|]. vm_compute. reflexivity.
  - eexists. split; [reflexivity|]. vm_compute. reflexivity.
  - eexists. split; [reflexivity|]. cbn. tauto.
  - eexists. split; [reflexivity|]. vm_compute. reflexivity.
  - intros u [=].
  - reflexivity.
  - eexists. split; reflexivity.
Defined.

Lemma generates_sectionless :
  generates world_sectionless (formData clean) (JObj []).
Proof.
  eexists. exists "{}". repeat split; vm_compute; reflexivity.
Defined.

End ScenarioFacts.

Section FurtherInstances.
Import Reference.

Lemma success_means_delivered_witness :
  exists req' p id,
    Validator.validate Example.req = ([], req')
    /\ (serve Example.world Example.req Example.db_stale).1.2
       = (generation_calls req'
          ++ [SubscribersUpsert (written_row Example.world req' Example.db_stale);
              RenderCreate p; Sleep 20000; RenderFetch id;
              SendMail (mail_of (formData req')
                          (JStr "https://files.example/doc-1.pdf"))])%list
    /\ upsert_error Example.world (written_row Example.world req' Example.db_stale)
       = None
    /\ render_create Example.world p <> None
    /\ render_fetch Example.world id <> None
    /\ sendMail Example.world
         (mail_of (formData req') (JStr "https://files.example/doc-1.pdf")) = true
    /\ (serve Example.world Example.req Example.db_stale).2
       = Table.upsert (written_row Example.world req' Example.db_stale)
           Example.db_stale.
Proof.
  apply (success_means_delivered Example.world Example.req Example.db_stale).
  vm_compute. reflexivity.
Defined.

Lemma already_generated_means_recent_witness :
  exists req',
    Validator.validate Example.req = ([], req')
    /\ recent (fetched req' Example.db_recent)
         (clock Example.world (lookup_calls req'))
    /\ (serve Example.world Example.req Example.db_recent).1.2 = lookup_calls req'
    /\ (serve Example.world Example.req Example.db_recent).2 = Example.db_recent.
Proof.
  apply (already_generated_means_recent Example.world Example.req Example.db_recent).
  vm_compute. reflexivity.
Defined.

Lemma verification_outage_fails_witness :
  serve Scenario.world_outage Example.req Example.db_stale
  = (Some failure, [captcha_call Example.clean], Example.db_stale).
Proof.
  apply (verification_outage_fails Scenario.world_outage Example.req Example.clean).
  - exact ExampleFacts.req_valid.
  - reflexivity.
  - left. reflexivity.
Defined.

Lemma second_check_rejects_witness :
  serve Example.world Scenario.req_no_token Example.db_stale
  = (Some {| status := 400;
             body := BodyError "Missing required fields:  or verificationToken" |},
     [CaptchaVerify "captcha-ok"], Example.db_stale).
Proof.
  apply (second_check_rejects Example.world Scenario.req_no_token
           Scenario.clean_no_token Example.db_stale).
  - exact ScenarioFacts.req_no_token_valid.
  - reflexivity.
  - exact (ScenarioFacts.human Example.world Scenario.clean_no_token eq_refl eq_refl).
  - right. reflexivity.
Defined.

Lemma table_read_error_fails_witness :
  serve Scenario.world_read_error Example.req Example.db_stale
  = (Some failure, lookup_calls Example.clean, Example.db_stale).
Proof.
  apply (table_read_error_fails Scenario.world_read_error Example.req Example.clean
           Example.db_stale "connection refused").
  - exact ExampleFacts.req_valid.
  - reflexivity.
  - exact (ScenarioFacts.human Scenario.world_read_error Example.clean eq_refl eq_refl).
  - vm_compute. reflexivity.
  - reflexivity.
  - reflexivity.
Defined.

Lemma refused_upsert_fails_witness :
  serve Scenario.world_refusing Example.req Example.db_stale
  = (Some failure,
     (generation_calls Example.clean
      ++ [SubscribersUpsert
            (written_row Scenario.world_refusing Example.clean Example.db_stale)])%list,
     Example.db_stale).
Proof.
  apply (refused_upsert_fails Scenario.world_refusing Example.req Example.clean
           Example.db_stale Example.assessment "permission denied").
  - exact (ExampleFacts.reaches Scenario.world_refusing eq_refl eq_refl).
  - exact (ExampleFacts.stale_db_stale Scenario.world_refusing eq_refl).
  - exact (ExampleFacts.generates_assessment Scenario.world_refusing eq_refl).
  - reflexivity.
Defined.

Lemma sectionless_assessment_stamped_witness :
  serve Scenario.world_sectionless Example.req Example.db_stale
  = (Some failure,
     (generation_calls Example.clean
      ++ [SubscribersUpsert
            (written_row Scenario.world_sectionless Example.clean
               Example.db_stale)])%list,
     Table.upsert
       (written_row Scenario.world_sectionless Example.clean Example.db_stale)
       Example.db_stale).
Proof.
  apply (sectionless_assessment_stamped Scenario.world_sectionless Example.req
           Example.clean Example.db_stale (JObj [])).
  - exact (ExampleFacts.reaches Scenario.world_sectionless eq_refl eq_refl).
  - exact (ExampleFacts.stale_db_stale Scenario.world_sectionless eq_refl).
  - exact ScenarioFacts.generates_sectionless.
  - right. exists JUndefined. split; reflexivity.
  - reflexivity.
Defined.

Lemma validation_gate_witness :
  Validator.validate Example.req = ([], sanitized Example.req)
  /\ exists errors,
      errors <> []
      /\ forall db,
          serve Example.world Example.req_no_consent db
          = (Some {| status := 400; body := BodyErrors errors |}, [], db).
Proof.
  assert (isEmail "" = false) as Hempty by reflexivity.
  destruct (validation_gate Example.world Example.req Hempty) as [Hyes _].
  destruct (validation_gate Example.world Example.req_no_consent Hempty) as [_ Hno].
  split.
  - apply Hyes. exact ScenarioFacts.req_well_formed.
  - apply Hno. intros [_ _ _ _ _ _ Hk _]. discriminate.
Defined.

Lemma second_check_redundant_witness :
  missingFields (formData (sanitized Example.req)) = [].
Proof.
  apply (second_check_redundant Example.req "ada@example.com").
  - exact ScenarioFacts.req_well_formed.
  - intros s Hs. destruct s as [|a s]; [discriminate|].
    cbn [escape runtime escape_html]. unfold escape_char.
    repeat (destruct (Nat.eqb _ _); [reflexivity|]). reflexivity.
  - vm_compute. reflexivity.
  - reflexivity.
Defined.

Lemma prose_around_json_dropped_witness :
  extraction (Scenario.prose_before
              ++ String "{" (Scenario.prose_object ++ "}") ++ Scenario.prose_after)
  = Value (JObj [("company", JStr "Engines")]).
Proof.
  rewrite (prose_around_json_dropped Scenario.prose_before Scenario.prose_object
             Scenario.prose_after);
    vm_compute; reflexivity.
Defined.

Lemma repeat_request_throttled_witness :
  exists resp log db',
    serve Example.world_no_mail Example.req Example.db_stale = (Some resp, log, db')
    /\ serve Scenario.world_later Example.req db'
       = (Some already_generated, lookup_calls Example.clean, db').
Proof.
  apply (repeat_request_throttled Example.world_no_mail Scenario.world_later
           Example.req Example.clean Example.req Example.clean Example.db_stale
           Example.assessment).
  - exact (ExampleFacts.reaches Example.world_no_mail eq_refl eq_refl).
  - exact (ExampleFacts.stale_db_stale Example.world_no_mail eq_refl).
  - exact (ExampleFacts.generates_assessment Example.world_no_mail eq_refl).
  - reflexivity.
  - intros x rest E. vm_compute in E. inversion E. reflexivity.
  - vm_compute. reflexivity.
  - vm_compute. reflexivity.
  - exact (ExampleFacts.reaches Scenario.world_later eq_refl eq_refl).
  - reflexivity.
  - vm_compute. discriminate.
Defined.

Lemma delivered_content_witness :
  exists log db' p,
    serve Example.world Example.req Example.db_stale
    = (Some (success (JStr "https://files.example/doc-1.pdf")), log, db')
    /\ In (RenderCreate p) log
    /\ Payload.name p = "Ada"
    /\ Payload.company p = "Engines &amp; Co"
    /\ Payload.date p = "2026-11-01"
    /\ Payload.nextSteps p = JStr "Next Steps"
    /\ In (SendMail
             {| Mail.to := "ada@example.com";
                Mail.subject := "Your IT Assessment from Betechpro";
                Mail.name := "Ada";
                Mail.company := "Engines &amp; Co";
                Mail.pdfUrl := JStr "https://files.example/doc-1.pdf" |}) log.
Proof.
  pose proof (delivered_content Example.world Example.req Example.db_stale
                Example.assessment
                (JArr [JStr "Overview"; JStr "Analysis"; JStr "Recommendations";
                       JStr "Next Steps"])
                (JStr "Overview") (JStr "Analysis") (JStr "Recommendations")
                (JStr "Next Steps") (JStr "doc-1")
                (JStr "https://files.example/doc-1.pdf")
                " Ada " "Engines & Co" "11-50" "cybersecurity-risks"
                "ada@example.com") as D.
  rewrite ScenarioFacts.clean_sanitized in D.
  specialize (D (ExampleFacts.reaches Example.world eq_refl eq_refl)
                (ExampleFacts.stale_db_stale Example.world eq_refl)
                (ExampleFacts.generates_assessment Example.world eq_refl)
                eq_refl eq_refl eq_refl eq_refl eq_refl
                (fun _ => eq_refl) ExampleFacts.renders_world (fun _ => eq_refl)
                eq_refl eq_refl eq_refl eq_refl eq_refl).
  do 3 eexists. split; [exact D|].
  split; [apply in_or_app; right; right; left; reflexivity|].
  repeat split; try (vm_compute; reflexivity).
  apply in_or_app. right. do 4 right. left. vm_compute. reflexivity.
Defined.

End FurtherInstances.
